(** * AI Tailor: the measurement pipeline of [ai_tailor.py]

    A shallow embedding of class [AITailorSystem] (calibration, landmark to
    measurement extraction, frame processing, per-user history and its
    persistence), of the [/save] route and of the page script's
    [saveMeasurements], with the properties of the design document stated
    over it.

    Python floats are IEEE binary64 numbers: they are modelled by Rocq's
    primitive floats, whose operations are the same correctly rounded
    ones.  The dimensions of a frame are those of a numpy array, that is
    non-negative machine integers below 2^63: they are modelled by
    primitive 63-bit integers.

    What the pipeline takes from outside is an input of the model: the
    landmarks the detector reports for a frame (or none), the platform's
    power function and numpy's rounding, the reading of the local clock,
    and whether a file can be opened for writing. *)

From Stdlib Require Import ZArith Lia Uint63 Floats.
From stdpp Require Import gmap strings list fin_maps.

Set Warnings "-inexact-float".

Local Open Scope float_scope.

(** ** Python values and exceptions *)

(** The exceptions the modelled code can raise. *)
Inductive exn : Set :=
  | ZeroDivisionError
  | OverflowError
  | IndexError
  | KeyError
  | TypeError
  | cv2_error
  | OSError.

(** The result of an expression that may raise. *)
Inductive result (A : Type) : Type :=
  | Ok (a : A)
  | Err (e : exn).
Arguments Ok {A} a.
Arguments Err {A} e.

Definition bind {A B : Type} (r : result A) (k : A -> result B) : result B :=
  match r with
  | Ok a => k a
  | Err e => Err e
  end.

Notation "'let!' x ':=' r 'in' k" := (bind r (fun x => k))
  (at level 10, x pattern, r at level 100, k at level 200).

(** The outcome of a method call on a state [S]: the state is kept on
    both paths, since what a method assigned before raising stays
    assigned. *)
Inductive outcome (S A : Type) : Type :=
  | Return (a : A) (s : S)
  | Raise (e : exn) (s : S).
Arguments Return {S A} a s.
Arguments Raise {S A} e s.

Definition state_after {S A : Type} (o : outcome S A) : S :=
  match o with
  | Return _ s => s
  | Raise _ s => s
  end.

Definition returned {S A : Type} (o : outcome S A) : option A :=
  match o with
  | Return a _ => Some a
  | Raise _ _ => None
  end.

(** ** Float arithmetic as Python performs it *)

Module PyFloat.

(** [float(n)] for a frame dimension [n]. *)
Definition of_int (n : int) : float := PrimFloat.of_uint63 n.

(** [a / b] on floats: Python raises where IEEE would return an
    infinity or NaN for a zero divisor. *)
Definition truediv (a b : float) : result float :=
  if PrimFloat.is_zero b then Err ZeroDivisionError else Ok (a / b).

(** [n / 8] on an int [n] below 2^63: the quotient is the float nearest
    to the exact one, which is [float(n) / 8.0] since dividing by a
    power of two is exact in this range. *)
Definition int_truediv_8 (n : int) : float := of_int n / 8.

(** [x * n] for a float [x] and an int [n]: the int is converted. *)
Definition mul_int (x : float) (n : int) : float := x * of_int n.

Section Pow.

(** The platform's [pow(a, 2.0)] for a finite [a > 0], [a <> 1],
    followed by the range test CPython applies to its result
    ([OverflowError] on a range error). *)
Variable libm_pow2 : float -> result float.

(** [x ** 2] on a float, as [float_pow] sorts out the cases: NaN and
    the infinities and zeros are answered directly, a negative base
    is replaced by its absolute value (the exponent is even), 1 is
    answered directly, and the rest goes to the platform. *)
Definition pow2 (x : float) : result float :=
  if PrimFloat.is_nan x then Ok x
  else if PrimFloat.is_infinity x then Ok (PrimFloat.abs x)
  else if PrimFloat.is_zero x then Ok 0
  else
    let a := if PrimFloat.ltb x 0 then PrimFloat.opp x else x in
    if PrimFloat.eqb a 1 then Ok 1 else libm_pow2 a.

End Pow.

(** One instance of the platform power, for the sample inputs: a platform
    whose [pow(a, 2.0)] is the correctly rounded square, out of range when
    it is infinite.  (A platform's result may differ from it in the last
    digit; the samples use exact squares.) *)
Definition ieee_pow2 (a : float) : result float :=
  let r := a * a in
  if PrimFloat.is_infinity r then Err OverflowError else Ok r.

(** Rounding to the nearest integer, ties to even ([rint]): adding and
    subtracting 2^52 does it below 2^52 in magnitude, and every float
    from there on is an integer.  The sign is kept, also that of a zero. *)
Definition rint (x : float) : float :=
  let big := 4503599627370496 in
  if PrimFloat.ltb (PrimFloat.abs x) big then
    if PrimFloat.get_sign x then - ((- x + big) - big) else (x + big) - big
  else x.

(** [round(x, 1)] as numpy computes it for its float64 scalars: scale by
    ten, round to an integer, scale back. *)
Definition np_round1 (x : float) : float := rint (x * 10) / 10.

End PyFloat.

(** ** The state of [AITailorSystem] *)

(** One landmark of the detector: normalized coordinates. *)
Record landmark : Set := { lm_x : float; lm_y : float }.

(** Landmarks by position. *)
Abbreviation landmarks := (gmap nat landmark).

(** A Python object passed as [landmarks]: the detector's landmark list
    message, which holds its landmarks in a field and cannot be indexed
    itself, or a sequence of landmarks that can. *)
Inductive landmarks_object : Type :=
  | LandmarkList (items : landmarks)
  | Sequence (items : landmarks).

(** A measurement dict: measurement name to centimetres. *)
Abbreviation measurement_set := (gmap string float).

(** [frame.shape]: height, width, channels. *)
Record frame : Set := { height : int; width : int; channels : int }.

Record measurement_record : Type := {
  timestamp : string;
  measurements : measurement_set
}.

Record AITailorSystem : Type := {
  calibration_distance : Z;
  pixel_to_cm_ratio : float;
  calibrated : bool;
  measurements_data : gmap string (list measurement_record);
  current_user : string;
  current_measurements : option measurement_set
}.

(** [AITailorSystem.__init__] (the detector and the camera handle are
    external and carry no state the pipeline reads). *)
Definition init : AITailorSystem := {|
  calibration_distance := 50;
  pixel_to_cm_ratio := 0;
  calibrated := false;
  measurements_data := ∅;
  current_user := "Guest";
  current_measurements := None
|}.

(** [self.pixel_to_cm_ratio = ratio; self.calibrated = True]. *)
Definition set_calibration (ratio : float) (self : AITailorSystem) : AITailorSystem := {|
  calibration_distance := calibration_distance self;
  pixel_to_cm_ratio := ratio;
  calibrated := true;
  measurements_data := measurements_data self;
  current_user := current_user self;
  current_measurements := current_measurements self
|}.

(** [self.current_measurements = m]. *)
Definition set_current_measurements (m : option measurement_set)
    (self : AITailorSystem) : AITailorSystem := {|
  calibration_distance := calibration_distance self;
  pixel_to_cm_ratio := pixel_to_cm_ratio self;
  calibrated := calibrated self;
  measurements_data := measurements_data self;
  current_user := current_user self;
  current_measurements := m
|}.

(** [self.measurements_data = d]. *)
Definition set_measurements_data (d : gmap string (list measurement_record))
    (self : AITailorSystem) : AITailorSystem := {|
  calibration_distance := calibration_distance self;
  pixel_to_cm_ratio := pixel_to_cm_ratio self;
  calibrated := calibrated self;
  measurements_data := d;
  current_user := current_user self;
  current_measurements := current_measurements self
|}.

(** ** Calibration *)

(** [calibrate_system]: the face is taken to span an eighth of the frame
    width and to be 15.5 cm wide.  Both attributes are assigned after the
    division, so a raising call leaves [self] as it was. *)
Definition calibrate_system (fr : frame) (self : AITailorSystem)
  : outcome AITailorSystem bool :=
  let w := width fr in
  let face_width_pixels := PyFloat.int_truediv_8 w in
  let average_face_width_cm := 15.5 in
  match PyFloat.truediv average_face_width_cm face_width_pixels with
  | Err e => Raise e self
  | Ok ratio => Return true (set_calibration ratio self)
  end.

(** ** Measurement extraction *)

Definition landmarks_dict : gmap string nat :=
  list_to_map
    [ ("nose", 0%nat); ("left_shoulder", 11%nat); ("right_shoulder", 12%nat);
      ("left_elbow", 13%nat); ("right_elbow", 14%nat);
      ("left_wrist", 15%nat); ("right_wrist", 16%nat);
      ("left_hip", 23%nat); ("right_hip", 24%nat);
      ("left_knee", 25%nat); ("right_knee", 26%nat);
      ("left_ankle", 27%nat); ("right_ankle", 28%nat);
      ("left_ear", 7%nat); ("right_ear", 8%nat) ].

(** [d[k]] on a dict. *)
Definition dict_get {V : Type} (d : gmap string V) (k : string) : result V :=
  match d !! k with
  | Some v => Ok v
  | None => Err KeyError
  end.

(** [landmarks[i]]: indexing the message raises [TypeError], indexing a
    sequence at a position that holds nothing raises [IndexError]. *)
Definition seq_get (lms : landmarks_object) (i : nat) : result landmark :=
  match lms with
  | LandmarkList _ => Err TypeError
  | Sequence items =>
      match items !! i with
      | Some l => Ok l
      | None => Err IndexError
      end
  end.

(** [cv2.cvtColor(frame, cv2.COLOR_BGR2RGB)] on an 8-bit image, as the
    camera delivers them: it raises on an empty frame and on a frame that
    has not three or four channels, and returns a frame of three. *)
Definition cvtColor_BGR2RGB (fr : frame) : result frame :=
  if (Uint63.eqb (height fr) 0 || Uint63.eqb (width fr) 0
      || negb (Uint63.eqb (channels fr) 3 || Uint63.eqb (channels fr) 4))%bool
  then Err cv2_error
  else Ok {| height := height fr; width := width fr; channels := 3 |}.

(** The six names of a measurement dict, in the order they are set. *)
Definition measurement_names : list string :=
  [ "Shoulder Width"; "Left Arm Length"; "Torso Length";
    "Inseam"; "Hip Width"; "Leg Length" ].

Section Measure.

(** The platform's power (see [PyFloat.pow2]) and the [round(x, 1)] of a
    numpy float64 scalar. *)
Variable libm_pow2 : float -> result float.
Variable round1 : float -> float.

(** [calculate_distance]: [np.sqrt((p1[0]-p2[0])**2 + (p1[1]-p2[1])**2)]. *)
Definition calculate_distance (point1 point2 : float * float) : result float :=
  let! dx2 := PyFloat.pow2 libm_pow2 (fst point1 - fst point2) in
  let! dy2 := PyFloat.pow2 libm_pow2 (snd point1 - snd point2) in
  Ok (PrimFloat.sqrt (dx2 + dy2)).

(** [[landmarks[landmarks_dict[name]].x * w, landmarks[landmarks_dict[name]].y * h]]. *)
Definition pixel_point (lms : landmarks_object) (name : string) (w h : int)
  : result (float * float) :=
  let! i := dict_get landmarks_dict name in
  let! lx := seq_get lms i in
  let! j := dict_get landmarks_dict name in
  let! ly := seq_get lms j in
  Ok (PyFloat.mul_int (lm_x lx) w, PyFloat.mul_int (lm_y ly) h).

(** The body of the [try] block of [extract_measurements]: the dict is
    filled entry by entry, and a raising step abandons it. *)
Definition extract_try (self : AITailorSystem) (lms : landmarks_object) (h w : int)
  : result measurement_set :=
  let ratio := pixel_to_cm_ratio self in
  let measurements : measurement_set := ∅ in
  (* Shoulder width *)
  let! left_shoulder := pixel_point lms "left_shoulder" w h in
  let! right_shoulder := pixel_point lms "right_shoulder" w h in
  let! shoulder_width := calculate_distance left_shoulder right_shoulder in
  let measurements := <["Shoulder Width" := round1 (shoulder_width * ratio)]> measurements in
  (* Arm length *)
  let! left_shoulder_pos := pixel_point lms "left_shoulder" w h in
  let! left_wrist_pos := pixel_point lms "left_wrist" w h in
  let! arm_length := calculate_distance left_shoulder_pos left_wrist_pos in
  let measurements := <["Left Arm Length" := round1 (arm_length * ratio)]> measurements in
  (* Torso length *)
  let! left_hip := pixel_point lms "left_hip" w h in
  let! torso_length := calculate_distance left_shoulder_pos left_hip in
  let measurements := <["Torso Length" := round1 (torso_length * ratio)]> measurements in
  (* Inseam *)
  let! left_ankle := pixel_point lms "left_ankle" w h in
  let! inseam := calculate_distance left_hip left_ankle in
  let measurements := <["Inseam" := round1 (inseam * ratio)]> measurements in
  (* Hip width *)
  let! right_hip := pixel_point lms "right_hip" w h in
  let! hip_width := calculate_distance left_hip right_hip in
  let measurements := <["Hip Width" := round1 (hip_width * ratio)]> measurements in
  (* Leg length *)
  let! leg_length := calculate_distance left_hip left_ankle in
  let measurements := <["Leg Length" := round1 (leg_length * ratio)]> measurements in
  Ok measurements.

(** [extract_measurements]: [None] while the ratio is zero, and [None]
    when anything in the [try] block raises. *)
Definition extract_measurements (self : AITailorSystem) (lms : landmarks_object)
    (frame_shape : frame) : option measurement_set :=
  let h := height frame_shape in
  let w := width frame_shape in
  if PrimFloat.is_zero (pixel_to_cm_ratio self) then None
  else
    match extract_try self lms h w with
    | Ok measurements => Some measurements
    | Err _ => None
    end.

(** [process_frame]; [pose_landmarks] is what the detector, given the
    converted frame, reports in [results.pose_landmarks]: [None] for no
    body, or the landmarks its message holds.  The message itself is what
    is handed to [extract_measurements]. *)
Definition process_frame (pose_landmarks : option landmarks) (fr : frame)
    (self : AITailorSystem)
  : outcome AITailorSystem (bool * option measurement_set) :=
  let calibration :=
    if calibrated self then Return true self else calibrate_system fr self in
  match calibration with
  | Raise e self => Raise e self
  | Return _ self =>
      match cvtColor_BGR2RGB fr with
      | Err e => Raise e self
      | Ok rgb_frame =>
          match pose_landmarks with
          | Some items =>
              let measurements := extract_measurements self (LandmarkList items) fr in
              Return (true, measurements) (set_current_measurements measurements self)
          | None => Return (false, None) self
          end
      end
  end.

End Measure.

(** ** Vocabulary of the statements on extraction *)

Definition is_ok {A : Type} (r : result A) : bool :=
  match r with
  | Ok _ => true
  | Err _ => false
  end.

(** A dict with exactly the six entries, set in the order of the code. *)
Definition measurement_dict (sw al tl ins hw ll : float) : measurement_set :=
  <["Leg Length" := ll]>
    (<["Hip Width" := hw]>
      (<["Inseam" := ins]>
        (<["Torso Length" := tl]>
          (<["Left Arm Length" := al]>
            (<["Shoulder Width" := sw]> ∅))))).

(** The positions of left shoulder, right shoulder, left wrist, left hip,
    right hip and left ankle. *)
Definition required_landmarks : list nat :=
  [11%nat; 12%nat; 15%nat; 23%nat; 24%nat; 27%nat].

Definition required_present (lms : landmarks) : bool :=
  forallb (fun i => bool_decide (is_Some (lms !! i))) required_landmarks.

(** The pairs of positions a distance is taken between. *)
Definition measured_pairs : list (nat * nat) :=
  [(11%nat, 12%nat); (11%nat, 15%nat); (11%nat, 23%nat); (23%nat, 27%nat); (23%nat, 24%nat)].

(** A landmark in pixels. *)
Definition to_pixels (w h : int) (l : landmark) : float * float :=
  (PyFloat.mul_int (lm_x l) w, PyFloat.mul_int (lm_y l) h).

(** No squared pixel difference between two measured landmarks is out of
    the range of the floats. *)
Definition distances_in_range (libm_pow2 : float -> result float)
    (lms : landmarks) (fr : frame) : bool :=
  forallb
    (fun ij : nat * nat =>
       match lms !! fst ij, lms !! snd ij with
       | Some a, Some b =>
           is_ok (calculate_distance libm_pow2
                    (to_pixels (width fr) (height fr) a)
                    (to_pixels (width fr) (height fr) b))
       | _, _ => true
       end)
    measured_pairs.

(** ** The history store *)

(** What a call reads from its environment: the local wall clock, already
    formatted by [strftime("%Y-%m-%d %H:%M:%S")], and whether
    [open(filename, 'w')] succeeds. *)
Record Env : Type := { clock_now : string; can_open : string -> bool }.

(** The system together with the files of the working directory; a file
    holds the JSON document last dumped to it. *)
Record World : Type := {
  system : AITailorSystem;
  disk : gmap string (list measurement_record)
}.

Definition history_file (user_name : string) : string :=
  "measurements_" +:+ user_name +:+ ".json".

(** [save_measurements]: the record is appended in memory first, then the
    user's whole history is dumped to the user's file. *)
Definition save_measurements (env : Env) (user_name : string)
    (measurements : measurement_set) (w : World) : outcome World bool :=
  let self := system w in
  let timestamp := clock_now env in
  let data :=
    match measurements_data self !! user_name with
    | None => <[user_name := []]> (measurements_data self)
    | Some _ => measurements_data self
    end in
  let measurement_record :=
    {| timestamp := timestamp; measurements := measurements |} in
  let data := alter (fun history => history ++ [measurement_record]) user_name data in
  let self := set_measurements_data data self in
  let filename := history_file user_name in
  if can_open env filename then
    match dict_get data user_name with
    | Ok history =>
        Return true {| system := self; disk := <[filename := history]> (disk w) |}
    | Err e => Raise e {| system := self; disk := disk w |}
    end
  else Raise OSError {| system := self; disk := disk w |}.

(** The JSON body of a [/save] request; a key may be missing. *)
Record save_request : Type := {
  req_user : option string;
  req_measurements : option measurement_set
}.

(** The [/save] route: [data['user']] and [data['measurements']] are passed
    on as they are. *)
Definition save (env : Env) (data : save_request) (w : World) : outcome World bool :=
  match req_user data with
  | None => Raise KeyError w
  | Some user =>
      match req_measurements data with
      | None => Raise KeyError w
      | Some measurements =>
          match save_measurements env user measurements w with
          | Return _ w' => Return true w'
          | Raise e w' => Raise e w'
          end
      end
  end.

(** The page script's [saveMeasurements]: nothing is sent without a
    current measurement; [value || 'Guest'] replaces an empty field. *)
Definition saveMeasurements (username_field : string)
    (currentMeasurements : option measurement_set) : option save_request :=
  match currentMeasurements with
  | None => None
  | Some m =>
      let username := if decide (username_field = "") then "Guest" else username_field in
      Some {| req_user := Some username; req_measurements := Some m |}
  end.

(** Timestamps in the order of the history never step back. *)
Fixpoint timestamps_nondecreasing (history : list measurement_record) : bool :=
  match history with
  | [] => true
  | r :: rest =>
      match rest with
      | [] => true
      | r' :: _ => String.leb (timestamp r) (timestamp r') && timestamps_nondecreasing rest
      end
  end.

(** ** The states the system goes through *)

(** The states reached from a freshly created system by calls of its
    methods, whether they return or raise. *)
Inductive reachable (libm_pow2 : float -> result float) (round1 : float -> float)
  : AITailorSystem -> Prop :=
  | reachable_init :
      reachable libm_pow2 round1 init
  | reachable_calibrate_system (fr : frame) (self : AITailorSystem) :
      reachable libm_pow2 round1 self ->
      reachable libm_pow2 round1 (state_after (calibrate_system fr self))
  | reachable_process_frame (pose_landmarks : option landmarks) (fr : frame)
      (self : AITailorSystem) :
      reachable libm_pow2 round1 self ->
      reachable libm_pow2 round1
        (state_after (process_frame libm_pow2 round1 pose_landmarks fr self))
  | reachable_save_measurements (env : Env) (user_name : string)
      (measurements : measurement_set) (self : AITailorSystem)
      (files : gmap string (list measurement_record)) :
      reachable libm_pow2 round1 self ->
      reachable libm_pow2 round1
        (system (state_after
           (save_measurements env user_name measurements
              {| system := self; disk := files |}))).

(** ** Sample inputs *)

Module Sample.

(** An 800 by 600 colour frame. *)
Definition a_frame : frame := {| height := 600; width := 800; channels := 3 |}.

(** A frame with no columns. *)
Definition empty_frame : frame := {| height := 480; width := 0; channels := 3 |}.

Definition at_ (x y : float) : landmark := {| lm_x := x; lm_y := y |}.

(** A standing body: shoulders, left wrist, hips, left ankle, and a nose. *)
Definition body : landmarks :=
  list_to_map
    [ (0%nat, at_ 0.375 0.0625);
      (11%nat, at_ 0.25 0.125); (12%nat, at_ 0.5 0.125);
      (15%nat, at_ 0.25 0.5);
      (23%nat, at_ 0.25 0.5); (24%nat, at_ 0.5 0.5);
      (27%nat, at_ 0.25 0.875) ].


(** The system after calibration on [a_frame]. *)
Definition calibrated_system : AITailorSystem := set_calibration 0.155 init.

Definition M1 : measurement_set := measurement_dict 31 34.9 34.9 34.9 31 34.9.
Definition M2 : measurement_set := measurement_dict 31.5 35 35 35.2 31 35.2.


Definition fresh_world : World := {| system := init; disk := ∅ |}.

(** A working directory where every file can be opened; the clock at a
    first call, a minute later, and one hour back (as local time is at
    the end of daylight saving). *)
Definition env_at (now : string) : Env :=
  {| clock_now := now; can_open := fun _ => true |}.
Definition first_call : Env := env_at "2026-11-01 01:59:58".
Definition a_minute_later : Env := env_at "2026-11-01 02:00:58".
Definition an_hour_back : Env := env_at "2026-11-01 01:00:03".

End Sample.

(** ** The routes and the page script *)

(** Truth value of [process_frame]'s second result in [success and
    measurements]: a dict counts as true when it is not empty. *)
Definition truthy (measurements : option measurement_set) : bool :=
  match measurements with
  | Some m => negb (Nat.eqb (size m) 0)
  | None => false
  end.

(** The [/calibrate] route; [camera] is the frame [cap.read()] returned,
    if it returned one.  The response is its [success] field. *)
Definition calibrate (camera : option frame) (self : AITailorSystem)
  : outcome AITailorSystem bool :=
  match camera with
  | Some fr =>
      match calibrate_system fr self with
      | Return _ self' => Return true self'
      | Raise e self' => Raise e self'
      end
  | None => Return false self
  end.

Section Routes.

Variable libm_pow2 : float -> result float.
Variable round1 : float -> float.

(** The [/measure] route.  The response is [Some m] for
    [{'success': True, 'measurements': m}] and [None] for
    [{'success': False}]. *)
Definition measure (camera : option frame) (pose_landmarks : option landmarks)
    (self : AITailorSystem) : outcome AITailorSystem (option measurement_set) :=
  match camera with
  | Some fr =>
      match process_frame libm_pow2 round1 pose_landmarks fr self with
      | Return (success, measurements) self' =>
          if success && truthy measurements then Return measurements self'
          else Return None self'
      | Raise e self' => Raise e self'
      end
  | None => Return None self
  end.

(** A request to the application, with what the call reads from outside. *)
Inductive request : Type :=
  | GetCalibrate (camera : option frame)
  | GetMeasure (camera : option frame) (pose_landmarks : option landmarks)
  | PostSave (env : Env) (data : save_request).

(** The application after a request: a route that raises is answered with
    an error page and the application goes on with what was assigned. *)
Definition serve (r : request) (w : World) : World :=
  match r with
  | GetCalibrate camera =>
      {| system := state_after (calibrate camera (system w)); disk := disk w |}
  | GetMeasure camera pose_landmarks =>
      {| system := state_after (measure camera pose_landmarks (system w));
         disk := disk w |}
  | PostSave env data => state_after (save env data w)
  end.

Definition serve_all (rs : list request) (w : World) : World :=
  fold_left (fun w r => serve r w) rs w.

End Routes.

(** The variables of the page script and the value of its name field. *)
Record Page : Type := {
  js_calibrated : bool;
  js_currentMeasurements : option measurement_set;
  username_value : string
}.

(** The page as loaded. *)
Definition page_loaded : Page :=
  {| js_calibrated := false; js_currentMeasurements := None; username_value := "Guest" |}.

(** [calibrate()]'s handler of a parsed response: the flag is set whatever
    the response says. *)
Definition on_calibrate_response (success : bool) (p : Page) : Page :=
  {| js_calibrated := true;
     js_currentMeasurements := js_currentMeasurements p;
     username_value := username_value p |}.

(** [measureNow()]'s handler of a parsed response. *)
Definition on_measure_response (data : option measurement_set) (p : Page) : Page :=
  match data with
  | Some m =>
      {| js_calibrated := js_calibrated p;
         js_currentMeasurements := Some m;
         username_value := username_value p |}
  | None => p
  end.

(** What the user does on the page, with what the served request reads
    from outside; [delivered] tells whether the response reached the
    handler (it does not when the transfer fails or the body does not
    parse). *)
Inductive action : Type :=
  | TypeName (v : string)
  | ClickCalibrate (camera : option frame) (delivered : bool)
  | ClickMeasure (camera : option frame) (pose_landmarks : option landmarks)
      (delivered : bool)
  | ClickSave (env : Env).

(** The page and the application it talks to, requests served one at a
    time. *)
Record Site : Type := { page : Page; world : World }.

Section PageActions.

Variable libm_pow2 : float -> result float.
Variable round1 : float -> float.

Definition act (a : action) (s : Site) : Site :=
  match a with
  | TypeName v =>
      {| page :=
           {| js_calibrated := js_calibrated (page s);
              js_currentMeasurements := js_currentMeasurements (page s);
              username_value := v |};
         world := world s |}
  | ClickCalibrate camera delivered =>
      let out := calibrate camera (system (world s)) in
      {| page :=
           match returned out with
           | Some success =>
               if delivered then on_calibrate_response success (page s) else page s
           | None => page s
           end;
         world := serve libm_pow2 round1 (GetCalibrate camera) (world s) |}
  | ClickMeasure camera pose_landmarks delivered =>
      if js_calibrated (page s) then
        let out := measure libm_pow2 round1 camera pose_landmarks (system (world s)) in
        {| page :=
             match returned out with
             | Some data =>
                 if delivered then on_measure_response data (page s) else page s
             | None => page s
             end;
           world := serve libm_pow2 round1 (GetMeasure camera pose_landmarks) (world s) |}
      else s
  | ClickSave env =>
      match saveMeasurements (username_value (page s)) (js_currentMeasurements (page s)) with
      | Some data =>
          {| page := page s; world := serve libm_pow2 round1 (PostSave env data) (world s) |}
      | None => s
      end
  end.

Definition act_all (acts : list action) (s : Site) : Site :=
  fold_left (fun s a => act a s) acts s.

End PageActions.

(** ** Vocabulary of the statements on histories *)

(** The in-memory history of a user, empty when the user has none. *)
Definition history_of (user_name : string) (w : World) : list measurement_record :=
  default [] (measurements_data (system w) !! user_name).


(** The record a save creates. *)
Definition record_of (save : Env * measurement_set) : measurement_record :=
  {| timestamp := clock_now (fst save); measurements := snd save |}.

(** Calls of [save_measurements] for one user, one after the other, each
    with its environment and measurements, whether they return or raise. *)
Definition save_all (user_name : string) (saves : list (Env * measurement_set))
    (w : World) : World :=
  fold_left
    (fun w save => state_after (save_measurements (fst save) user_name (snd save) w))
    saves w.

(** Every file is the history file of a user and holds a beginning, not
    empty, of that user's in-memory history. *)
Definition persisted_prefix (w : World) : Prop :=
  forall (f : string) (h : list measurement_record),
    disk w !! f = Some h ->
    exists u : string, f = history_file u /\ h `prefix_of` history_of u w /\ h <> [].

(** The requests that go to [/calibrate]. *)
Definition is_calibrate (r : request) : bool :=
  match r with
  | GetCalibrate _ => true
  | _ => false
  end.



(** * Properties *)

(** ** Facts on binary64 rounding

    What the calibration needs of the floats: the eighth of a positive
    frame width is not zero.  The facts are read off the specification of
    the primitive operations. *)

Section FloatFacts.

Local Open Scope Z_scope.

Lemma digits2_pos_bounds (p : positive) :
  2 ^ (Z.pos (digits2_pos p) - 1) <= Z.pos p < 2 ^ Z.pos (digits2_pos p).
Proof.
  induction p as [p IH|p IH|]; cbn [digits2_pos].
  - rewrite Pos2Z.inj_succ, Z.pow_succ_r by lia.
    replace (Z.succ (Z.pos (digits2_pos p)) - 1) with (Z.succ (Z.pos (digits2_pos p) - 1)) by lia.
    rewrite Z.pow_succ_r by lia. lia.
  - rewrite Pos2Z.inj_succ, Z.pow_succ_r by lia.
    replace (Z.succ (Z.pos (digits2_pos p)) - 1) with (Z.succ (Z.pos (digits2_pos p) - 1)) by lia.
    rewrite Z.pow_succ_r by lia. lia.
  - simpl. lia.
Qed.

Lemma shr_1_m (mrs : shr_record) :
  0 <= shr_m mrs -> shr_m (shr_1 mrs) = shr_m mrs / 2.
Proof.
  destruct mrs as [m r s]; cbn [shr_m]; intros Hm.
  destruct m as [|[p|p|]|p]; cbn [shr_1 shr_m]; try lia.
  - reflexivity.
  - rewrite Pos2Z.inj_xI. apply Z.div_unique with 1; lia.
  - rewrite Pos2Z.inj_xO. apply Z.div_unique with 0; lia.
  - reflexivity.
Qed.

Lemma iter_shr_1_m (n : positive) : forall mrs : shr_record,
  0 <= shr_m mrs -> shr_m (SpecFloat.iter_pos shr_1 n mrs) = shr_m mrs / 2 ^ Z.pos n.
Proof.
  induction n as [n IH|n IH|]; intros mrs Hm; cbn [SpecFloat.iter_pos].
  - assert (H1 : 0 <= shr_m (shr_1 mrs)) by (rewrite shr_1_m by lia; apply Z.div_pos; lia).
    assert (H2 : 0 <= shr_m (SpecFloat.iter_pos shr_1 n (shr_1 mrs)))
      by (rewrite IH by lia; apply Z.div_pos; lia).
    rewrite IH, IH, shr_1_m by lia.
    rewrite !Z.div_div by lia. f_equal.
    rewrite Pos2Z.inj_xI, Z.pow_add_r, Z.pow_mul_r, Z.pow_2_r by lia.
    change (2 ^ 2) with 4. rewrite Z.pow_1_r.
    replace 4 with (2 * 2) by lia. rewrite Z.pow_mul_l. lia.
  - assert (H2 : 0 <= shr_m (SpecFloat.iter_pos shr_1 n mrs))
      by (rewrite IH by lia; apply Z.div_pos; lia).
    rewrite IH, IH by lia.
    rewrite !Z.div_div by lia. f_equal.
    rewrite Pos2Z.inj_xO. rewrite <- Z.pow_add_r by lia. f_equal. lia.
  - rewrite shr_1_m by lia. reflexivity.
Qed.

Lemma digits2_pos_le (p : positive) (k : Z) :
  Z.pos p < 2 ^ k -> Z.pos (digits2_pos p) <= k.
Proof.
  intros H. pose proof (digits2_pos_bounds p) as [Hlo _].
  destruct (Z.le_gt_cases (Z.pos (digits2_pos p)) k) as [|Hgt]; [assumption|].
  exfalso.
  assert (2 ^ k <= 2 ^ (Z.pos (digits2_pos p) - 1)) by (apply Z.pow_le_mono_r; lia).
  lia.
Qed.

Lemma shr_record_of_loc_m (m : Z) (l : location) :
  shr_m (shr_record_of_loc m l) = m.
Proof. destruct l as [|[]]; reflexivity. Qed.

Lemma round_nearest_even_bounds (m : Z) (l : location) :
  m <= round_nearest_even m l <= m + 1.
Proof.
  unfold round_nearest_even. destruct l as [|[]]; try lia.
  destruct (Z.even m); lia.
Qed.

(** One normalisation step keeps a positive mantissa positive and moves the
    exponent up by at most the number of digits. *)
Lemma shr_fexp_pos (q : positive) (e : Z) (l : location) :
  -1000 <= e ->
  exists mrs e', shr_fexp prec emax (Z.pos q) e l = (mrs, e')
    /\ 0 < shr_m mrs <= Z.pos q
    /\ e <= e' <= e + Z.pos (digits2_pos q).
Proof.
  intros He. unfold shr_fexp, shr, fexp, SpecFloat.emin, Zdigits2.
  pose proof (digits2_pos_bounds q) as [Hlo Hhi].
  set (d := Z.pos (digits2_pos q)) in *.
  assert (Hd : 1 <= d) by (unfold d; lia).
  change (3 - emax - prec) with (-1074).
  change prec with 53.
  replace (Z.max (d + e - 53) (-1074) - e) with (d - 53) by lia.
  destruct (d - 53) as [|n|n] eqn:Hn.
  - eexists _, _. split; [reflexivity|].
    rewrite shr_record_of_loc_m. lia.
  - eexists _, _. split; [reflexivity|].
    rewrite iter_shr_1_m by (rewrite shr_record_of_loc_m; lia).
    rewrite shr_record_of_loc_m. split; [split|lia].
    + apply Z.div_str_pos. split; [apply Z.pow_pos_nonneg; lia|].
      transitivity (2 ^ (d - 1)); [|assumption].
      apply Z.pow_le_mono_r; lia.
    + apply Z.div_le_upper_bound; [apply Z.pow_pos_nonneg; lia|].
      assert (0 < 2 ^ Z.pos n) by (apply Z.pow_pos_nonneg; lia).
      nia.
  - eexists _, _. split; [reflexivity|].
    rewrite shr_record_of_loc_m. lia.
Qed.

Lemma binary_round_aux_finite (s : bool) (q : positive) (ex : Z) (lx : location) :
  -1000 <= ex ->
  ex + 2 * Z.pos (digits2_pos q) + 1 <= 971 ->
  exists m e, binary_round_aux prec emax s (Z.pos q) ex lx = S754_finite s m e
    /\ ex <= e <= ex + 2 * Z.pos (digits2_pos q) + 1 /\ Z.pos m <= Z.pos q + 1.
Proof.
  intros Hlo Hhi. unfold binary_round_aux.
  destruct (shr_fexp_pos q ex lx Hlo) as (mrs1 & e1 & -> & Hm1 & He1).
  pose proof (round_nearest_even_bounds (shr_m mrs1) (loc_of_shr_record mrs1)) as Hr.
  destruct (round_nearest_even (shr_m mrs1) (loc_of_shr_record mrs1)) as [|m1|m1] eqn:Hm; try lia.
  destruct (shr_fexp_pos m1 e1 loc_Exact ltac:(lia)) as (mrs2 & e2 & -> & Hm2 & He2).
  assert (Hd : Z.pos (digits2_pos m1) <= Z.pos (digits2_pos q) + 1).
  { apply digits2_pos_le.
    pose proof (digits2_pos_bounds q) as [_ Hq].
    rewrite Z.pow_add_r, Z.pow_1_r by lia. lia. }
  destruct (shr_m mrs2) as [|m2|m2] eqn:Hm2'; try lia.
  replace (e2 <=? emax - prec) with true
    by (symmetry; apply Z.leb_le; change (emax - prec) with 971; lia).
  exists m2, e2. split; [reflexivity|]. lia.
Qed.

Lemma digits2_pos_iter_xO (p d : positive) :
  digits2_pos (Pos.iter xO p d) = (digits2_pos p + d)%positive.
Proof.
  induction d as [|d IH] using Pos.peano_ind.
  - cbn. lia.
  - rewrite Pos.iter_succ. cbn [digits2_pos]. rewrite IH. lia.
Qed.

Lemma binary_round_int (p : positive) :
  Z.pos p < 2 ^ 63 ->
  exists m e, binary_round prec emax false p 0 = S754_finite false m e
    /\ -52 <= e <= 127 /\ Z.pos (digits2_pos m) <= 64.
Proof.
  intros Hp. unfold binary_round, shl_align, fexp, SpecFloat.emin.
  pose proof (digits2_pos_le p 63 Hp) as Hk.
  set (k := digits2_pos p) in *.
  change (3 - emax - prec) with (-1074). change prec with 53.
  replace (Z.max (Z.pos k + 0 - 53) (-1074) - 0) with (Z.pos k - 53) by lia.
  replace (Z.max (Z.pos k + 0 - 53) (-1074)) with (Z.pos k - 53) by lia.
  destruct (Z.pos k - 53) as [|n|n] eqn:Hn.
  - destruct (binary_round_aux_finite false p 0 loc_Exact) as (m & e & E & He & Hm);
      [lia | fold k; lia |].
    exists m, e. split; [exact E|]. fold k in He. split; [lia|].
    apply digits2_pos_le. change (2 ^ 64) with (2 * 2 ^ 63). lia.
  - destruct (binary_round_aux_finite false p 0 loc_Exact) as (m & e & E & He & Hm);
      [lia | fold k; lia |].
    exists m, e. split; [exact E|]. fold k in He. split; [lia|].
    apply digits2_pos_le. change (2 ^ 64) with (2 * 2 ^ 63). lia.
  - assert (Hd : Z.pos (digits2_pos (Pos.iter xO p n)) = 53)
      by (rewrite digits2_pos_iter_xO; fold k; lia).
    destruct (binary_round_aux_finite false (Pos.iter xO p n) (Z.neg n) loc_Exact)
      as (m & e & E & He & Hm); [lia | lia |].
    exists m, e. split; [exact E|]. split; [lia|].
    apply digits2_pos_le.
    pose proof (digits2_pos_bounds (Pos.iter xO p n)) as [_ Hb]. rewrite Hd in Hb.
    assert (2 ^ 53 < 2 ^ 63) by (apply Z.pow_lt_mono_r; lia).
    change (2 ^ 64) with (2 * 2 ^ 63). lia.
Qed.

Lemma SFdiv_8_finite (m : positive) (e : Z) :
  -52 <= e <= 127 -> Z.pos (digits2_pos m) <= 64 ->
  exists m' e',
    SFdiv prec emax (S754_finite false m e) (S754_finite false 4503599627370496 (-49))
    = S754_finite false m' e'.
Proof.
  intros He Hd. unfold SFdiv, SFdiv_core_binary, Zdigits2, fexp, SpecFloat.emin.
  change (digits2_pos 4503599627370496) with 53%positive.
  change (3 - emax - prec) with (-1074). change prec with 53.
  pose proof (digits2_pos_bounds m) as [Hlo Hhi].
  set (d := Z.pos (digits2_pos m)) in *.
  assert (Hd1 : 1 <= d) by (unfold d; lia).
  replace (Z.min (Z.max (d + e - (53 + -49) - 53) (-1074)) (e - -49)) with (d + e - 57) by lia.
  replace (e - -49 - (d + e - 57)) with (106 - d) by lia.
  destruct (106 - d) as [|n|n] eqn:Hn; try lia. rewrite <- Hn.
  rewrite Z.shiftl_mul_pow2 by lia.
  destruct (Z.div_eucl (Z.pos m * 2 ^ (106 - d)) 4503599627370496) as [q r] eqn:E.
  assert (Hq : q = Z.pos m * 2 ^ (106 - d) / 4503599627370496)
    by (unfold Z.div; rewrite E; reflexivity).
  assert (Hp1 : 2 ^ (d - 1) * 2 ^ (106 - d) = 2 ^ 105)
    by (rewrite <- Z.pow_add_r by lia; f_equal; lia).
  assert (Hp2 : 2 ^ d * 2 ^ (106 - d) = 2 ^ 106)
    by (rewrite <- Z.pow_add_r by lia; f_equal; lia).
  assert (Hs : 0 < 2 ^ (106 - d)) by (apply Z.pow_pos_nonneg; lia).
  assert (Hq1 : 2 ^ 53 <= q).
  { rewrite Hq. apply Z.div_le_lower_bound; [lia|].
    change (4503599627370496 * 2 ^ 53) with (2 ^ 105). nia. }
  assert (Hq2 : q < 2 ^ 106).
  { rewrite Hq. apply Z.div_lt_upper_bound; [lia|].
    assert (0 < 2 ^ 106) by (apply Z.pow_pos_nonneg; lia). nia. }
  destruct q as [|q|q]; try (exfalso; assert (0 < 2 ^ 53) by (apply Z.pow_pos_nonneg; lia); lia).
  pose proof (digits2_pos_le q 106 Hq2) as Hdq.
  destruct (binary_round_aux_finite (xorb false false) q (d + e - 57)
              (new_location 4503599627370496 r)) as (m' & e' & E' & _); [lia | lia |].
  exists m', e'. exact E'.
Qed.

Lemma int_truediv_8_nonzero (n : int) :
  0 < Uint63.to_Z n -> PrimFloat.is_zero (PyFloat.int_truediv_8 n) = false.
Proof.
  intros Hn. unfold PrimFloat.is_zero, PyFloat.int_truediv_8, PyFloat.of_int.
  rewrite FloatAxioms.eqb_spec, FloatAxioms.div_spec, FloatAxioms.of_uint63_spec.
  change (Prim2SF 8) with (S754_finite false 4503599627370496 (-49)).
  change (Prim2SF 0) with (S754_zero false).
  destruct (Uint63.to_Z n) as [|p|p] eqn:Ep; try lia.
  cbn [binary_normalize].
  assert (Hp : Z.pos p < 2 ^ 63).
  { pose proof (Uint63.to_Z_bounded n) as Hb. rewrite Ep in Hb.
    change (2 ^ 63) with wB. lia. }
  destruct (binary_round_int p Hp) as (m & e & -> & He & Hd).
  destruct (SFdiv_8_finite m e He Hd) as (m' & e' & E).
  unfold SF64div. rewrite E. reflexivity.
Qed.

End FloatFacts.

(** ** Calibration *)

Lemma calibrate_system_positive (fr : frame) (self : AITailorSystem) :
  (0 < Uint63.to_Z (width fr))%Z ->
  calibrate_system fr self
  = Return true (set_calibration (15.5 / PyFloat.int_truediv_8 (width fr)) self).
Proof.
  intros Hw. unfold calibrate_system, PyFloat.truediv.
  rewrite (int_truediv_8_nonzero _ Hw). reflexivity.
Qed.

Lemma width_zero (fr : frame) :
  (Uint63.to_Z (width fr) <= 0)%Z -> width fr = 0%uint63.
Proof.
  intros Hw. apply Uint63.to_Z_inj.
  pose proof (Uint63.to_Z_bounded (width fr)). rewrite Uint63.to_Z_0. lia.
Qed.

(** What [calibrate_system] does, by the width of the frame. *)
Lemma calibrate_system_cases (fr : frame) (self : AITailorSystem) :
  (width fr = 0%uint63 /\ calibrate_system fr self = Raise ZeroDivisionError self)
  \/ ((0 < Uint63.to_Z (width fr))%Z
      /\ calibrate_system fr self
         = Return true (set_calibration (15.5 / PyFloat.int_truediv_8 (width fr)) self)).
Proof.
  destruct (Z.eq_dec (Uint63.to_Z (width fr)) 0%Z) as [H0|Hne].
  - left. assert (E : width fr = 0%uint63) by (apply width_zero; lia).
    split; [exact E|]. unfold calibrate_system. rewrite E. reflexivity.
  - right. pose proof (Uint63.to_Z_bounded (width fr)).
    assert (Hw : (0 < Uint63.to_Z (width fr))%Z) by lia.
    split; [exact Hw | apply calibrate_system_positive, Hw].
Qed.

(** C4. For a frame of positive width [w], [calibrate_system] returns
    normally, sets the scale factor to exactly [15.5 / (w / 8)] and the
    calibrated flag; for width 800 the scale factor is 0.155; calibrating
    again with a frame of the same width yields the same state. *)
Theorem calibrate_system_scale_factor (fr : frame) (self : AITailorSystem) :
  (0 < Uint63.to_Z (width fr))%Z ->
  let ratio := 15.5 / (PyFloat.of_int (width fr) / 8) in
  let self' := state_after (calibrate_system fr self) in
  returned (calibrate_system fr self) = Some true
  /\ pixel_to_cm_ratio self' = ratio
  /\ calibrated self' = true
  /\ (width fr = 800%uint63 -> pixel_to_cm_ratio self' = 0.155)
  /\ (forall fr' : frame,
        width fr' = width fr -> calibrate_system fr' self' = Return true self').
Proof.
  intros Hw ratio self'. subst self'.
  rewrite (calibrate_system_positive fr self Hw). cbn [state_after returned].
  repeat split.
  - intros E. cbn [pixel_to_cm_ratio set_calibration]. rewrite E. reflexivity.
  - intros fr' E. rewrite calibrate_system_positive by (rewrite E; exact Hw).
    rewrite E. reflexivity.
Qed.

Lemma calibrate_system_scale_factor_witness :
  pixel_to_cm_ratio (state_after (calibrate_system Sample.a_frame init)) = 0.155
  /\ calibrated (state_after (calibrate_system Sample.a_frame init)) = true.
Proof.
  destruct (calibrate_system_scale_factor Sample.a_frame init) as (_ & _ & Hc & H800 & _).
  - reflexivity.
  - split; [apply H800; reflexivity | exact Hc].
Defined.

(** C5. For a frame of width 0 (no width is negative), [calibrate_system]
    fails: the division raises before anything is assigned, so no scale
    factor is produced and the calibration state is what it was. *)
Theorem calibrate_system_zero_width (fr : frame) (self : AITailorSystem) :
  (Uint63.to_Z (width fr) <= 0)%Z ->
  calibrate_system fr self = Raise ZeroDivisionError self
  /\ pixel_to_cm_ratio (state_after (calibrate_system fr self)) = pixel_to_cm_ratio self
  /\ calibrated (state_after (calibrate_system fr self)) = calibrated self.
Proof.
  intros Hw. unfold calibrate_system. rewrite (width_zero fr Hw).
  repeat split; reflexivity.
Qed.

Lemma calibrate_system_zero_width_witness :
  calibrate_system Sample.empty_frame init = Raise ZeroDivisionError init.
Proof.
  apply (calibrate_system_zero_width Sample.empty_frame init).
  vm_compute. discriminate.
Defined.

(** ** Saving, unfolded *)

Lemma appended_history (data : gmap string (list measurement_record)) (u : string)
    (r : measurement_record) :
  alter (fun history => history ++ [r]) u
    match data !! u with
    | None => <[u := []]> data
    | Some _ => data
    end
  = <[u := default [] (data !! u) ++ [r]]> data.
Proof.
  apply map_eq. intros j. destruct (decide (u = j)) as [<-|Hne].
  - rewrite lookup_alter_eq, lookup_insert_eq.
    destruct (data !! u) as [h|] eqn:E; cbn.
    + rewrite E. reflexivity.
    + rewrite lookup_insert_eq. reflexivity.
  - rewrite lookup_alter_ne, lookup_insert_ne by exact Hne.
    destruct (data !! u); [reflexivity|]. rewrite lookup_insert_ne by exact Hne.
    reflexivity.
Qed.

(** What a call of [save_measurements] comes to: the in-memory history of
    the user gets the new record at its end, whether or not the file can
    then be opened. *)
Lemma save_measurements_unfold (env : Env) (u : string) (m : measurement_set)
    (w : World) :
  let record := {| timestamp := clock_now env; measurements := m |} in
  let history := default [] (measurements_data (system w) !! u) ++ [record] in
  let self' :=
    set_measurements_data (<[u := history]> (measurements_data (system w))) (system w) in
  save_measurements env u m w
  = if can_open env (history_file u)
    then Return true {| system := self'; disk := <[history_file u := history]> (disk w) |}
    else Raise OSError {| system := self'; disk := disk w |}.
Proof.
  cbv zeta. unfold save_measurements. rewrite appended_history.
  unfold dict_get. rewrite lookup_insert_eq. reflexivity.
Qed.

(** The in-memory history of the user after the call, returned or raised. *)
Lemma save_measurements_history (env : Env) (u : string) (m : measurement_set)
    (w : World) :
  measurements_data (system (state_after (save_measurements env u m w))) !! u
  = Some (default [] (measurements_data (system w) !! u)
          ++ [{| timestamp := clock_now env; measurements := m |}]).
Proof.
  rewrite save_measurements_unfold.
  destruct (can_open env (history_file u)); cbn; apply lookup_insert_eq.
Qed.

(** ** Measurement extraction *)

Section MeasureFacts.

Variable libm_pow2 : float -> result float.
Variable round1 : float -> float.

Lemma pixel_point_lookup (lms : landmarks) (name : string) (i : nat) (w h : int) :
  landmarks_dict !! name = Some i ->
  pixel_point (Sequence lms) name w h
  = match lms !! i with
    | Some l => Ok (to_pixels w h l)
    | None => Err IndexError
    end.
Proof.
  intros Hi. unfold pixel_point, dict_get, seq_get. rewrite Hi. cbn [bind].
  destruct (lms !! i); reflexivity.
Qed.

(** The six names the extraction looks up, with their positions. *)
Lemma pixel_point_left_shoulder (lms : landmarks) w h :
  pixel_point (Sequence lms) "left_shoulder" w h
  = match lms !! 11%nat with Some l => Ok (to_pixels w h l) | None => Err IndexError end.
Proof. apply pixel_point_lookup. reflexivity. Qed.

Lemma pixel_point_right_shoulder (lms : landmarks) w h :
  pixel_point (Sequence lms) "right_shoulder" w h
  = match lms !! 12%nat with Some l => Ok (to_pixels w h l) | None => Err IndexError end.
Proof. apply pixel_point_lookup. reflexivity. Qed.

Lemma pixel_point_left_wrist (lms : landmarks) w h :
  pixel_point (Sequence lms) "left_wrist" w h
  = match lms !! 15%nat with Some l => Ok (to_pixels w h l) | None => Err IndexError end.
Proof. apply pixel_point_lookup. reflexivity. Qed.

Lemma pixel_point_left_hip (lms : landmarks) w h :
  pixel_point (Sequence lms) "left_hip" w h
  = match lms !! 23%nat with Some l => Ok (to_pixels w h l) | None => Err IndexError end.
Proof. apply pixel_point_lookup. reflexivity. Qed.

Lemma pixel_point_right_hip (lms : landmarks) w h :
  pixel_point (Sequence lms) "right_hip" w h
  = match lms !! 24%nat with Some l => Ok (to_pixels w h l) | None => Err IndexError end.
Proof. apply pixel_point_lookup. reflexivity. Qed.

Lemma pixel_point_left_ankle (lms : landmarks) w h :
  pixel_point (Sequence lms) "left_ankle" w h
  = match lms !! 27%nat with Some l => Ok (to_pixels w h l) | None => Err IndexError end.
Proof. apply pixel_point_lookup. reflexivity. Qed.

Lemma measurement_dict_keys (sw al tl ins hw ll : float) (k : string) :
  is_Some (measurement_dict sw al tl ins hw ll !! k) <-> k ∈ measurement_names.
Proof.
  rewrite <- elem_of_dom. unfold measurement_dict, measurement_names.
  rewrite !dom_insert_L, dom_empty_L. rewrite !elem_of_cons, elem_of_nil.
  rewrite !elem_of_union, !elem_of_singleton, elem_of_empty. tauto.
Qed.

Lemma measurement_dict_inseam (sw al tl ins hw ll : float) :
  measurement_dict sw al tl ins hw ll !! "Inseam" = Some ins.
Proof. reflexivity. Qed.

Lemma measurement_dict_leg_length (sw al tl ins hw ll : float) :
  measurement_dict sw al tl ins hw ll !! "Leg Length" = Some ll.
Proof. reflexivity. Qed.

(** Destruct the next step of a [try] block recorded in hypothesis [E]. *)
Ltac try_step E :=
  match type of E with
  | context [bind ?r _] => destruct r eqn:?; cbn [bind] in E; try discriminate E
  end.

(** A [try] block that completes has set all six entries, the last from
    the same distance as the fourth. *)
Lemma extract_try_inv (self : AITailorSystem) (lms : landmarks_object) (h w : int)
    (m : measurement_set) :
  extract_try libm_pow2 round1 self lms h w = Ok m ->
  exists sw al tl ins hw : float, m = measurement_dict sw al tl ins hw ins.
Proof.
  intros E. unfold extract_try in E. repeat try_step E.
  injection E as <-. eexists _, _, _, _, _. reflexivity.
Qed.

Lemma extract_measurements_inv (self : AITailorSystem) (lms : landmarks_object) (fr : frame)
    (m : measurement_set) :
  extract_measurements libm_pow2 round1 self lms fr = Some m ->
  exists sw al tl ins hw : float, m = measurement_dict sw al tl ins hw ins.
Proof.
  unfold extract_measurements. destruct (PrimFloat.is_zero _); [discriminate|].
  destruct (extract_try _ _ _ _ _ _) eqn:E; [|discriminate].
  intros [= <-]. eapply extract_try_inv, E.
Qed.

(** C2. [extract_measurements] returns either [None] or a dict whose keys
    are exactly the six measurement names: never a dict with only some of
    them, whatever object it is given as landmarks. *)
Theorem extract_measurements_all_or_nothing (self : AITailorSystem)
    (lms : landmarks_object) (fr : frame) :
  extract_measurements libm_pow2 round1 self lms fr = None
  \/ exists m : measurement_set,
       extract_measurements libm_pow2 round1 self lms fr = Some m
       /\ (forall k : string, is_Some (m !! k) <-> k ∈ measurement_names)
       /\ size m = 6%nat.
Proof.
  destruct (extract_measurements libm_pow2 round1 self lms fr) as [m|] eqn:E;
    [right | left; reflexivity].
  destruct (extract_measurements_inv _ _ _ _ E) as (sw & al & tl & ins & hw & ->).
  eexists. split; [reflexivity|]. split.
  - apply measurement_dict_keys.
  - reflexivity.
Qed.

(** C6. Whenever [extract_measurements] succeeds, the entries "Leg Length"
    and "Inseam" of the returned dict hold the same value. *)
Theorem leg_length_is_inseam (self : AITailorSystem) (lms : landmarks_object) (fr : frame)
    (m : measurement_set) :
  extract_measurements libm_pow2 round1 self lms fr = Some m ->
  exists v : float, m !! "Inseam" = Some v /\ m !! "Leg Length" = Some v.
Proof.
  intros E.
  destruct (extract_measurements_inv _ _ _ _ E) as (sw & al & tl & ins & hw & ->).
  exists ins. split; [apply measurement_dict_inseam | apply measurement_dict_leg_length].
Qed.

(** The extraction reads the landmark sequence at the six required
    positions only. *)
Lemma extract_measurements_ext (self : AITailorSystem) (lms lms' : landmarks)
    (fr : frame) :
  (forall i : nat, i ∈ required_landmarks -> lms' !! i = lms !! i) ->
  extract_measurements libm_pow2 round1 self (Sequence lms') fr
  = extract_measurements libm_pow2 round1 self (Sequence lms) fr.
Proof.
  intros H. unfold extract_measurements, extract_try.
  rewrite !pixel_point_left_shoulder, !pixel_point_right_shoulder,
    !pixel_point_left_wrist, !pixel_point_left_hip, !pixel_point_right_hip,
    !pixel_point_left_ankle.
  rewrite !H by (unfold required_landmarks; rewrite !elem_of_cons; tauto).
  reflexivity.
Qed.

Lemma required_present_lookup (lms : landmarks) :
  required_present lms = true ->
  exists ls rs lw lh rh la : landmark,
    lms !! 11%nat = Some ls /\ lms !! 12%nat = Some rs /\ lms !! 15%nat = Some lw
    /\ lms !! 23%nat = Some lh /\ lms !! 24%nat = Some rh /\ lms !! 27%nat = Some la.
Proof.
  unfold required_present, required_landmarks. cbn [forallb].
  rewrite !andb_true_iff, !bool_decide_eq_true.
  intros ([ls ?] & [rs ?] & [lw ?] & [lh ?] & [rh ?] & [la ?] & _).
  exists ls, rs, lw, lh, rh, la. tauto.
Qed.

(** X18. Called with a sequence that can be indexed, a non-zero scale
    factor, the six required landmarks present and no squared pixel
    difference out of range, [extract_measurements] returns a dict with
    all six names; and its result is the same for any two such sequences
    that agree at the six required positions, whatever else they hold. *)
Theorem extract_measurements_six_landmarks (self : AITailorSystem)
    (lms : landmarks) (fr : frame) :
  PrimFloat.is_zero (pixel_to_cm_ratio self) = false ->
  required_present lms = true ->
  distances_in_range libm_pow2 lms fr = true ->
  (exists m : measurement_set,
     extract_measurements libm_pow2 round1 self (Sequence lms) fr = Some m
     /\ forall k : string, k ∈ measurement_names -> is_Some (m !! k))
  /\ (forall lms' : landmarks,
        (forall i : nat, i ∈ required_landmarks -> lms' !! i = lms !! i) ->
        extract_measurements libm_pow2 round1 self (Sequence lms') fr
        = extract_measurements libm_pow2 round1 self (Sequence lms) fr).
Proof.
  intros Hz Hp Hd. split; [|intros lms'; apply extract_measurements_ext].
  destruct (required_present_lookup lms Hp)
    as (ls & rs & lw & lh & rh & la & Hls & Hrs & Hlw & Hlh & Hrh & Hla).
  unfold distances_in_range, measured_pairs in Hd. cbn [forallb fst snd] in Hd.
  rewrite Hls, Hrs, Hlw, Hlh, Hrh, Hla in Hd.
  rewrite !andb_true_iff in Hd. destruct Hd as (D1 & D2 & D3 & D4 & D5 & _).
  unfold extract_measurements, extract_try. rewrite Hz.
  rewrite !pixel_point_left_shoulder, !pixel_point_right_shoulder,
    !pixel_point_left_wrist, !pixel_point_left_hip, !pixel_point_right_hip,
    !pixel_point_left_ankle.
  rewrite Hls, Hrs, Hlw, Hlh, Hrh, Hla. cbn [bind].
  destruct (calculate_distance _ (to_pixels _ _ ls) (to_pixels _ _ rs)); [|discriminate D1].
  destruct (calculate_distance _ (to_pixels _ _ ls) (to_pixels _ _ lw)); [|discriminate D2].
  destruct (calculate_distance _ (to_pixels _ _ ls) (to_pixels _ _ lh)); [|discriminate D3].
  destruct (calculate_distance _ (to_pixels _ _ lh) (to_pixels _ _ la)); [|discriminate D4].
  destruct (calculate_distance _ (to_pixels _ _ lh) (to_pixels _ _ rh)); [|discriminate D5].
  cbn [bind]. eexists. split; [reflexivity|].
  intros k Hk. apply (measurement_dict_keys _ _ _ _ _ _ k), Hk.
Qed.

(** ** Frame processing *)

(** While the scale factor is zero, extraction returns [None]; it is a
    function of the system that assigns nothing. *)
Lemma extract_measurements_uncalibrated (self : AITailorSystem) (lms : landmarks_object)
    (fr : frame) :
  PrimFloat.is_zero (pixel_to_cm_ratio self) = true ->
  extract_measurements libm_pow2 round1 self lms fr = None.
Proof. intros Hz. unfold extract_measurements. rewrite Hz. reflexivity. Qed.

(** Extraction on the detector's message: the first [landmarks[...]]
    raises and the [except] clause returns [None]. *)
Lemma extract_measurements_landmark_list (self : AITailorSystem) (items : landmarks)
    (fr : frame) :
  extract_measurements libm_pow2 round1 self (LandmarkList items) fr = None.
Proof.
  unfold extract_measurements. destruct (PrimFloat.is_zero _); reflexivity.
Qed.

(** [process_frame] on a calibrated system: nothing is calibrated, and
    the call raises exactly when the colour conversion does. *)
Lemma process_frame_calibrated (pose_landmarks : option landmarks) (fr : frame)
    (self : AITailorSystem) :
  calibrated self = true ->
  process_frame libm_pow2 round1 pose_landmarks fr self
  = match cvtColor_BGR2RGB fr with
    | Err e => Raise e self
    | Ok _ =>
        match pose_landmarks with
        | Some items =>
            let measurements :=
              extract_measurements libm_pow2 round1 self (LandmarkList items) fr in
            Return (true, measurements) (set_current_measurements measurements self)
        | None => Return (false, None) self
        end
    end.
Proof. intros Hc. unfold process_frame. rewrite Hc. reflexivity. Qed.

Lemma process_frame_uncalibrated (pose_landmarks : option landmarks) (fr : frame)
    (self : AITailorSystem) :
  calibrated self = false ->
  (0 < Uint63.to_Z (width fr))%Z ->
  process_frame libm_pow2 round1 pose_landmarks fr self
  = process_frame libm_pow2 round1 pose_landmarks fr
      (set_calibration (15.5 / PyFloat.int_truediv_8 (width fr)) self).
Proof.
  intros Hc Hw. unfold process_frame at 1. rewrite Hc.
  rewrite (calibrate_system_positive fr self Hw).
  rewrite process_frame_calibrated by reflexivity. reflexivity.
Qed.

(** In every state the system goes through, a system that is not
    calibrated has the scale factor zero it was created with. *)
Lemma uncalibrated_ratio_zero (self : AITailorSystem) :
  reachable libm_pow2 round1 self ->
  calibrated self = false -> pixel_to_cm_ratio self = 0.
Proof.
  induction 1 as [|fr self _ IH|pose fr self _ IH|env u m self files _ IH].
  - reflexivity.
  - unfold calibrate_system.
    destruct (PyFloat.truediv _ _); cbn; [discriminate | exact IH].
  - unfold process_frame. destruct (calibrated self) eqn:Hc.
    + destruct (cvtColor_BGR2RGB fr); [destruct pose|]; cbn; rewrite Hc; discriminate.
    + unfold calibrate_system. destruct (PyFloat.truediv _ _).
      * destruct (cvtColor_BGR2RGB fr); [destruct pose|]; cbn; discriminate.
      * cbn. intros _. apply IH. reflexivity.
  - rewrite save_measurements_unfold.
    destruct (can_open env (history_file u)); cbn; exact IH.
Qed.

(** C1, as amended. In every state the system goes through, while it is
    not calibrated [extract_measurements] fails (returns [None]), and being
    a function of the system it assigns nothing.  [process_frame] on a
    system that is not calibrated first calibrates it from the frame: for
    a frame of positive width the system is calibrated afterwards, with
    the scale factor [15.5 / (w / 8)], whether the call then returns or
    raises; the outcome is that of the same call on the system so
    calibrated, and the call returns exactly when the colour conversion of
    the frame does. *)
Theorem measure_before_calibration (pose_landmarks : option landmarks) (fr : frame)
    (self : AITailorSystem) :
  reachable libm_pow2 round1 self ->
  calibrated self = false ->
  (0 < Uint63.to_Z (width fr))%Z ->
  (forall (lms : landmarks_object) (fr' : frame),
     extract_measurements libm_pow2 round1 self lms fr' = None)
  /\ (let out := process_frame libm_pow2 round1 pose_landmarks fr self in
      let ratio := 15.5 / (PyFloat.of_int (width fr) / 8) in
      out = process_frame libm_pow2 round1 pose_landmarks fr (set_calibration ratio self)
      /\ calibrated (state_after out) = true
      /\ pixel_to_cm_ratio (state_after out) = ratio
      /\ (is_Some (returned out) <-> is_ok (cvtColor_BGR2RGB fr) = true)).
Proof.
  intros Hr Hc Hw. split.
  - intros lms fr'. apply extract_measurements_uncalibrated.
    rewrite (uncalibrated_ratio_zero self Hr Hc). reflexivity.
  - cbv zeta. rewrite (process_frame_uncalibrated _ _ _ Hc Hw).
    split; [reflexivity|].
    rewrite process_frame_calibrated by reflexivity.
    destruct (cvtColor_BGR2RGB fr) as [rgb|e]; [destruct pose_landmarks|]; cbn;
      repeat split; eauto; try discriminate; intros [x Hx]; discriminate Hx.
Qed.


End MeasureFacts.

(** ** The history store *)

(** C10. Each call of [save_measurements] puts exactly one new record at
    the end of the in-memory history of the user it is called for and
    changes nothing else in the system: the system afterwards is the
    system before with that one history replaced, so the history of every
    other user, the calibration distance, the scale factor, the
    calibration flag, the current user and the current measurement are
    what they were.  It has done so before the file is opened: a call
    that fails to open the file has appended all the same, and has left
    every file as it was; a call that opens it has written that history
    to the file of the user and no other file. *)
Theorem save_measurements_appends (env : Env) (u : string) (m : measurement_set)
    (w : World) :
  let record := {| timestamp := clock_now env; measurements := m |} in
  let before := measurements_data (system w) in
  let history := default [] (before !! u) ++ [record] in
  let self' := set_measurements_data (<[u := history]> before) (system w) in
  let w' := state_after (save_measurements env u m w) in
  let after := measurements_data (system w') in
  system w' = self'
  /\ after !! u = Some history
  /\ (forall u' : string, u' ≠ u -> after !! u' = before !! u')
  /\ (calibration_distance (system w') = calibration_distance (system w)
      /\ pixel_to_cm_ratio (system w') = pixel_to_cm_ratio (system w)
      /\ calibrated (system w') = calibrated (system w)
      /\ current_user (system w') = current_user (system w)
      /\ current_measurements (system w') = current_measurements (system w))
  /\ save_measurements env u m w
     = if can_open env (history_file u)
       then Return true
              {| system := self'; disk := <[history_file u := history]> (disk w) |}
       else Raise OSError {| system := self'; disk := disk w |}.
Proof.
  cbv zeta. rewrite save_measurements_unfold.
  destruct (can_open env (history_file u)); cbn [state_after system measurements_data
    set_measurements_data calibration_distance pixel_to_cm_ratio calibrated current_user
    current_measurements];
    (split; [reflexivity|]);
    (split; [apply lookup_insert_eq|]);
    (split; [intros u' Hne; apply lookup_insert_ne; congruence|]);
    (split; [repeat split|reflexivity]).
Qed.

(** C7, as amended. Two saves for the same user whose files can be
    opened, from an empty history: the file of the user then holds exactly
    the two records, first then second, each with the measurements it was
    given and the clock reading of its call; the in-memory history is the
    same list; and the timestamps are in order exactly when the second
    clock reading is not before the first. *)
Theorem save_twice_persists_both (env1 env2 : Env) (u : string)
    (M1 M2 : measurement_set) (w : World) :
  default [] (measurements_data (system w) !! u) = [] ->
  can_open env1 (history_file u) = true ->
  can_open env2 (history_file u) = true ->
  let r1 := {| timestamp := clock_now env1; measurements := M1 |} in
  let r2 := {| timestamp := clock_now env2; measurements := M2 |} in
  let w1 := state_after (save_measurements env1 u M1 w) in
  let w2 := state_after (save_measurements env2 u M2 w1) in
  returned (save_measurements env1 u M1 w) = Some true
  /\ returned (save_measurements env2 u M2 w1) = Some true
  /\ disk w2 !! history_file u = Some [r1; r2]
  /\ measurements_data (system w2) !! u = Some [r1; r2]
  /\ (timestamps_nondecreasing [r1; r2] = true
      <-> String.leb (clock_now env1) (clock_now env2) = true).
Proof.
  intros Hempty Ho1 Ho2. cbv zeta.
  rewrite (save_measurements_unfold env1 u M1 w). rewrite Ho1, Hempty.
  cbn [state_after returned].
  rewrite save_measurements_unfold. rewrite Ho2.
  cbn [state_after returned system disk measurements_data set_measurements_data].
  rewrite !lookup_insert_eq. cbn [default app].
  repeat split; cbn [timestamps_nondecreasing timestamp]; rewrite andb_true_r; tauto.
Qed.

(** C8, as amended. The [/save] route files a record under the user name
    it receives, whatever it is, the empty name included, and raises when
    the request has none; "Guest" is put in place of an empty name by the
    page script, before the request is sent: a save issued from the page
    with an empty name field is filed under "Guest". *)
Theorem guest_is_substituted_by_the_page (env : Env) (m : measurement_set) (w : World) :
  let record := {| timestamp := clock_now env; measurements := m |} in
  let filed (u : string) (w' : World) :=
    measurements_data (system w') !! u
    = Some (default [] (measurements_data (system w) !! u) ++ [record]) in
  (forall u : string,
     filed u (state_after (save env {| req_user := Some u; req_measurements := Some m |} w)))
  /\ save env {| req_user := None; req_measurements := Some m |} w = Raise KeyError w
  /\ (exists data : save_request,
        saveMeasurements "" (Some m) = Some data
        /\ req_user data = Some "Guest"
        /\ filed "Guest" (state_after (save env data w))
        /\ (can_open env (history_file "Guest") = true ->
            disk (state_after (save env data w)) !! "measurements_Guest.json"
            = measurements_data (system (state_after (save env data w))) !! "Guest")).
Proof.
  cbv zeta.
  assert (Hfiled : forall u : string,
    measurements_data
      (system (state_after (save env {| req_user := Some u; req_measurements := Some m |} w)))
      !! u
    = Some (default [] (measurements_data (system w) !! u)
            ++ [{| timestamp := clock_now env; measurements := m |}])).
  { intros u. unfold save. cbn [req_user req_measurements].
    pose proof (save_measurements_history env u m w) as H.
    destruct (save_measurements env u m w); exact H. }
  split; [exact Hfiled|]. split; [reflexivity|].
  exists {| req_user := Some "Guest"; req_measurements := Some m |}.
  split; [reflexivity|]. split; [reflexivity|]. split; [apply Hfiled|].
  intros Ho. unfold save. cbn [req_user req_measurements].
  rewrite save_measurements_unfold. rewrite Ho.
  change (history_file "Guest") with "measurements_Guest.json". cbn [state_after system disk measurements_data set_measurements_data].
  rewrite !lookup_insert_eq. reflexivity.
Qed.

(** ** The properties on the sample inputs *)

(** C1, as stated, fails: measuring on the freshly created system, which
    is not calibrated, does not fail for want of a calibration: the call
    calibrates the system from the frame, goes on to the detector and
    returns, and the system is calibrated afterwards. *)
Lemma measure_uncalibrated_calibrates :
  let out :=
    process_frame PyFloat.ieee_pow2 PyFloat.np_round1 (Some Sample.body) Sample.a_frame init in
  calibrated init = false
  /\ returned out = Some (true, None)
  /\ calibrated (state_after out) = true
  /\ pixel_to_cm_ratio (state_after out) = 0.155.
Proof. cbv zeta. repeat split; reflexivity. Qed.

Lemma measure_before_calibration_witness :
  calibrated (state_after
    (process_frame PyFloat.ieee_pow2 PyFloat.np_round1 (Some Sample.body) Sample.a_frame init))
  = true.
Proof.
  destruct (measure_before_calibration PyFloat.ieee_pow2 PyFloat.np_round1
              (Some Sample.body) Sample.a_frame init) as (_ & _ & Hc & _).
  - apply reachable_init.
  - reflexivity.
  - reflexivity.
  - exact Hc.
Defined.


Lemma leg_length_is_inseam_witness :
  exists v : float,
    Sample.M1 !! "Inseam" = Some v /\ Sample.M1 !! "Leg Length" = Some v.
Proof.
  apply (leg_length_is_inseam PyFloat.ieee_pow2 PyFloat.np_round1
           Sample.calibrated_system (Sequence Sample.body) Sample.a_frame Sample.M1).
  reflexivity.
Defined.

(** C9. The code does not do what the claim says.  On a calibrated system
    (scale factor 0.155), with an 800 by 600 frame in which the detector
    reports a body whose six required landmarks are all present,
    [process_frame] hands [extract_measurements] the detector's landmark
    list message itself; [landmarks[11]] raises [TypeError] on it, the
    [except] clause returns [None], and the call answers [(True, None)]
    with no measurement.  On the sequence of landmarks held by that same
    message the extraction returns the six measurements [M1]. *)
Theorem six_landmarks_present_no_measurement :
  required_present Sample.body = true
  /\ PrimFloat.is_zero (pixel_to_cm_ratio Sample.calibrated_system) = false
  /\ pixel_point (LandmarkList Sample.body) "left_shoulder" 800 600 = Err TypeError
  /\ extract_measurements PyFloat.ieee_pow2 PyFloat.np_round1
       Sample.calibrated_system (LandmarkList Sample.body) Sample.a_frame = None
  /\ process_frame PyFloat.ieee_pow2 PyFloat.np_round1
       (Some Sample.body) Sample.a_frame Sample.calibrated_system
     = Return (true, None) (set_current_measurements None Sample.calibrated_system)
  /\ extract_measurements PyFloat.ieee_pow2 PyFloat.np_round1
       Sample.calibrated_system (Sequence Sample.body) Sample.a_frame = Some Sample.M1.
Proof. repeat split; reflexivity. Qed.

Lemma extract_measurements_six_landmarks_witness :
  exists m : measurement_set,
    extract_measurements PyFloat.ieee_pow2 PyFloat.np_round1
      Sample.calibrated_system (Sequence Sample.body) Sample.a_frame = Some m
    /\ forall k : string, k ∈ measurement_names -> is_Some (m !! k).
Proof.
  apply (extract_measurements_six_landmarks PyFloat.ieee_pow2 PyFloat.np_round1
           Sample.calibrated_system Sample.body Sample.a_frame);
    reflexivity.
Defined.

(** C7, as stated, fails: when local time steps back between the two
    saves, the two persisted records are in the order of the saves and
    their timestamps decrease. *)
Lemma save_twice_clock_steps_back :
  let w1 := state_after (save_measurements Sample.first_call "Alice" Sample.M1 Sample.fresh_world) in
  let w2 := state_after (save_measurements Sample.an_hour_back "Alice" Sample.M2 w1) in
  exists r1 r2 : measurement_record,
    disk w2 !! history_file "Alice" = Some [r1; r2]
    /\ measurements r1 = Sample.M1 /\ measurements r2 = Sample.M2
    /\ timestamps_nondecreasing [r1; r2] = false.
Proof.
  cbv zeta. eexists _, _. repeat split; reflexivity.
Qed.

Lemma save_twice_persists_both_witness :
  let w1 := state_after (save_measurements Sample.first_call "Alice" Sample.M1 Sample.fresh_world) in
  let w2 := state_after (save_measurements Sample.a_minute_later "Alice" Sample.M2 w1) in
  disk w2 !! history_file "Alice"
  = Some [ {| timestamp := "2026-11-01 01:59:58"; measurements := Sample.M1 |};
           {| timestamp := "2026-11-01 02:00:58"; measurements := Sample.M2 |} ].
Proof.
  cbv zeta.
  apply (save_twice_persists_both Sample.first_call Sample.a_minute_later "Alice"
           Sample.M1 Sample.M2 Sample.fresh_world); reflexivity.
Defined.

(** C8, as stated, fails: a request that reaches the route with the empty
    user name is filed under the empty name, in [measurements_.json], and
    nothing is filed under "Guest". *)
Lemma save_empty_user_name_kept :
  let data := {| req_user := Some ""; req_measurements := Some Sample.M1 |} in
  let w' := state_after (save Sample.first_call data Sample.fresh_world) in
  measurements_data (system w') !! "Guest" = None
  /\ disk w' !! history_file "Guest" = None
  /\ measurements_data (system w') !! ""
     = Some [ {| timestamp := "2026-11-01 01:59:58"; measurements := Sample.M1 |} ]
  /\ disk w' !! "measurements_.json"
     = Some [ {| timestamp := "2026-11-01 01:59:58"; measurements := Sample.M1 |} ].
Proof. cbv zeta. repeat split; reflexivity. Qed.

(** * Further properties *)

(** ** More facts on binary64 arithmetic *)

Section MoreFloatFacts.

Local Open Scope Z_scope.

(** The mantissa of a float has at most 53 digits. *)
Lemma Prim2SF_digits (x : float) (s : bool) (m : positive) (e : Z) :
  Prim2SF x = S754_finite s m e -> Z.pos (digits2_pos m) <= 53.
Proof.
  intros E. pose proof (Prim2SF_valid x) as Hv. rewrite E in Hv.
  unfold SpecFloat.valid_binary, bounded, canonical_mantissa, fexp, SpecFloat.emin in Hv.
  apply andb_prop in Hv as [Hc _]. apply Z.eqb_eq in Hc.
  change prec with 53 in Hc. lia.
Qed.

(** One normalisation step, with the exponent it reaches: the mantissa
    comes out positive and below 2^53. *)
Lemma shr_fexp_sharp (q : positive) (e : Z) (l : location) :
  -1000 <= e ->
  exists mrs e', shr_fexp prec emax (Z.pos q) e l = (mrs, e')
    /\ 0 < shr_m mrs < 2 ^ 53
    /\ e <= e' <= e + Z.max 0 (Z.pos (digits2_pos q) - 53).
Proof.
  intros He. unfold shr_fexp, shr, fexp, SpecFloat.emin, Zdigits2.
  pose proof (digits2_pos_bounds q) as [Hlo Hhi].
  set (d := Z.pos (digits2_pos q)) in *.
  assert (Hd : 1 <= d) by (unfold d; lia).
  change (3 - emax - prec) with (-1074).
  change prec with 53.
  replace (Z.max (d + e - 53) (-1074) - e) with (d - 53) by lia.
  destruct (d - 53) as [|n|n] eqn:Hn.
  - eexists _, _. split; [reflexivity|].
    rewrite shr_record_of_loc_m. replace d with 53 in Hhi by lia. lia.
  - eexists _, _. split; [reflexivity|].
    rewrite iter_shr_1_m by (rewrite shr_record_of_loc_m; lia).
    rewrite shr_record_of_loc_m.
    assert (Hn0 : 0 < 2 ^ Z.pos n) by (apply Z.pow_pos_nonneg; lia).
    split; [split|lia].
    + apply Z.div_str_pos. split; [exact Hn0|].
      transitivity (2 ^ (d - 1)); [|assumption].
      apply Z.pow_le_mono_r; lia.
    + apply Z.div_lt_upper_bound; [exact Hn0|].
      rewrite <- Z.pow_add_r by lia. replace (Z.pos n + 53) with d by lia. exact Hhi.
  - eexists _, _. split; [reflexivity|].
    rewrite shr_record_of_loc_m.
    assert (2 ^ d <= 2 ^ 53) by (apply Z.pow_le_mono_r; lia). lia.
Qed.

Lemma binary_round_aux_sharp (s : bool) (q : positive) (ex : Z) (lx : location) :
  -1000 <= ex ->
  ex + Z.max 0 (Z.pos (digits2_pos q) - 53) + 1 <= 971 ->
  exists m e, binary_round_aux prec emax s (Z.pos q) ex lx = S754_finite s m e
    /\ ex <= e <= ex + Z.max 0 (Z.pos (digits2_pos q) - 53) + 1.
Proof.
  intros Hlo Hhi. unfold binary_round_aux.
  destruct (shr_fexp_sharp q ex lx Hlo) as (mrs1 & e1 & -> & Hm1 & He1).
  pose proof (round_nearest_even_bounds (shr_m mrs1) (loc_of_shr_record mrs1)) as Hr.
  destruct (round_nearest_even (shr_m mrs1) (loc_of_shr_record mrs1)) as [|m1|m1] eqn:Hm; try lia.
  destruct (shr_fexp_sharp m1 e1 loc_Exact ltac:(lia)) as (mrs2 & e2 & -> & Hm2 & He2).
  assert (Hd : Z.pos (digits2_pos m1) <= 54).
  { apply digits2_pos_le. change (2 ^ 54) with (2 * 2 ^ 53). lia. }
  destruct (shr_m mrs2) as [|m2|m2] eqn:Hm2'; try lia.
  replace (e2 <=? emax - prec) with true
    by (symmetry; apply Z.leb_le; change (emax - prec) with 971; lia).
  exists m2, e2. split; [reflexivity|]. lia.
Qed.

(** The quotient of two finite floats of moderate exponents is finite and
    not zero, with the sign of the operands' signs. *)
Lemma SFdiv_finite (s1 s2 : bool) (m1 m2 : positive) (e1 e2 : Z) :
  Z.pos (digits2_pos m1) <= 53 -> Z.pos (digits2_pos m2) <= 53 ->
  -300 <= e1 <= 300 -> -300 <= e2 <= 300 ->
  exists m e,
    SFdiv prec emax (S754_finite s1 m1 e1) (S754_finite s2 m2 e2)
    = S754_finite (xorb s1 s2) m e
    /\ e1 - e2 - 105 <= e <= e1 - e2 + 54.
Proof.
  intros Hd1 Hd2 He1 He2. unfold SFdiv, SFdiv_core_binary, Zdigits2, fexp, SpecFloat.emin.
  change (3 - emax - prec) with (-1074). change prec with 53.
  pose proof (digits2_pos_bounds m1) as [Hlo1 Hhi1].
  pose proof (digits2_pos_bounds m2) as [Hlo2 Hhi2].
  set (d1 := Z.pos (digits2_pos m1)) in *.
  set (d2 := Z.pos (digits2_pos m2)) in *.
  assert (1 <= d1) by (unfold d1; lia). assert (1 <= d2) by (unfold d2; lia).
  replace (Z.min (Z.max (d1 + e1 - (d2 + e2) - 53) (-1074)) (e1 - e2))
    with (d1 + e1 - d2 - e2 - 53) by lia.
  replace (e1 - e2 - (d1 + e1 - d2 - e2 - 53)) with (d2 + 53 - d1) by lia.
  destruct (d2 + 53 - d1) as [|n|n] eqn:Hn; try lia. rewrite <- Hn.
  rewrite Z.shiftl_mul_pow2 by lia.
  destruct (Z.div_eucl (Z.pos m1 * 2 ^ (d2 + 53 - d1)) (Z.pos m2)) as [q r] eqn:E.
  assert (Hq : q = Z.pos m1 * 2 ^ (d2 + 53 - d1) / Z.pos m2)
    by (unfold Z.div; rewrite E; reflexivity).
  assert (Hp1 : 2 ^ (d1 - 1) * 2 ^ (d2 + 53 - d1) = 2 ^ d2 * 2 ^ 52).
  { rewrite <- !Z.pow_add_r by lia. f_equal. lia. }
  assert (Hp2 : 2 ^ d1 * 2 ^ (d2 + 53 - d1) = 2 ^ (d2 + 53))
    by (rewrite <- Z.pow_add_r by lia; f_equal; lia).
  assert (Hs : 0 < 2 ^ (d2 + 53 - d1)) by (apply Z.pow_pos_nonneg; lia).
  assert (H52 : 0 < 2 ^ 52) by (apply Z.pow_pos_nonneg; lia).
  assert (Hq1 : 2 ^ 52 <= q).
  { rewrite Hq. apply Z.div_le_lower_bound; [lia|]. nia. }
  assert (Hq2 : q < 2 ^ 106).
  { rewrite Hq. apply Z.div_lt_upper_bound; [lia|].
    assert (2 ^ (d2 + 53) <= 2 ^ 106) by (apply Z.pow_le_mono_r; lia).
    assert (0 < 2 ^ 106) by (apply Z.pow_pos_nonneg; lia). nia. }
  destruct q as [|q|q]; try lia.
  pose proof (digits2_pos_le q 106 Hq2) as Hdq.
  destruct (binary_round_aux_sharp (xorb s1 s2) q (d1 + e1 - d2 - e2 - 53)
              (new_location (Z.pos m2) r)) as (m' & e' & E' & He'); [lia | lia |].
  exists m', e'. split; [exact E'|]. lia.
Qed.

(** The scale factor computed from a positive frame width is a positive
    finite float. *)
Lemma scale_factor_finite (n : int) :
  0 < Uint63.to_Z n ->
  exists m e, Prim2SF (15.5 / PyFloat.int_truediv_8 n)%float = S754_finite false m e.
Proof.
  intros Hn. unfold PyFloat.int_truediv_8, PyFloat.of_int.
  destruct (Prim2SF (PrimFloat.of_uint63 n / 8)%float) as [| | |s m e] eqn:E.
  all: pose proof E as E0.
  all: rewrite FloatAxioms.div_spec, FloatAxioms.of_uint63_spec in E.
  all: change (Prim2SF 8) with (S754_finite false 4503599627370496 (-49)) in E.
  all: destruct (Uint63.to_Z n) as [|p|p] eqn:Ep; try lia.
  all: cbn [binary_normalize] in E.
  all: assert (Hp : Z.pos p < 2 ^ 63)
    by (pose proof (Uint63.to_Z_bounded n) as Hb; rewrite Ep in Hb;
        change (2 ^ 63) with wB; lia).
  all: destruct (binary_round_int p Hp) as (m0 & e0 & E1 & He0 & _).
  all: assert (Hd0 : Z.pos (digits2_pos m0) <= 53)
    by (apply (Prim2SF_digits (PrimFloat.of_uint63 n) false m0 e0);
        rewrite FloatAxioms.of_uint63_spec, Ep; exact E1).
  all: rewrite E1 in E.
  all: destruct (SFdiv_finite false false m0 4503599627370496 e0 (-49))
    as (m1 & e1 & E2 & He1); [exact Hd0 | vm_compute; discriminate | lia | lia |].
  all: unfold SF64div in E; rewrite E2 in E; try discriminate E.
  injection E as <- <- <-.
  rewrite FloatAxioms.div_spec, E0.
  change (Prim2SF 15.5) with (S754_finite false 8725724278030336 (-49)).
  destruct (SFdiv_finite false false 8725724278030336 m1 (-49) e1)
    as (m2 & e2 & E3 & _);
    [vm_compute; discriminate | apply (Prim2SF_digits _ _ _ _ E0) | lia | lia |].
  exists m2, e2. exact E3.
Qed.

(** Rounding commutes with the sign. *)
Lemma binary_round_aux_opp (s : bool) (m e : Z) (l : location) :
  binary_round_aux prec emax (negb s) m e l = SFopp (binary_round_aux prec emax s m e l).
Proof.
  unfold binary_round_aux.
  destruct (shr_fexp prec emax m e l) as [mrs1 e1].
  destruct (shr_fexp prec emax _ e1 loc_Exact) as [mrs2 e2].
  destruct (shr_m mrs2); try reflexivity.
  destruct (e2 <=? emax - prec); reflexivity.
Qed.

Lemma binary_normalize_opp (m e : Z) :
  m <> 0 ->
  binary_normalize prec emax (- m) e false = SFopp (binary_normalize prec emax m e false).
Proof.
  intros Hm. destruct m as [|p|p]; [congruence| |].
  - change (- Z.pos p) with (Z.neg p). unfold binary_normalize, binary_round.
    destruct (shl_align _ _ _) as [mz ez]. apply (binary_round_aux_opp false).
  - change (- Z.neg p) with (Z.pos p). unfold binary_normalize, binary_round.
    destruct (shl_align _ _ _) as [mz ez]. apply (binary_round_aux_opp true).
Qed.

(** Swapping the operands of a subtraction changes the sign of the
    difference, unless the difference is the positive zero both ways. *)
Lemma SFsub_swap (x y : spec_float) :
  SFsub prec emax y x = SFopp (SFsub prec emax x y)
  \/ (SFsub prec emax x y = S754_zero false /\ SFsub prec emax y x = S754_zero false).
Proof.
  destruct x as [sx|sx| |sx mx ex], y as [sy|sy| |sy my ey];
    try (left; reflexivity);
    try (destruct sx, sy; cbn; auto; fail).
  all: try (left; cbn; rewrite ?Bool.negb_involutive; reflexivity).
  - cbn [SFsub]. rewrite (Z.min_comm ey ex).
    set (ez := Z.min ex ey).
    set (A := cond_Zopp sx (Z.pos (fst (shl_align mx ex ez)))).
    set (B := cond_Zopp sy (Z.pos (fst (shl_align my ey ez)))).
    destruct (Z.eq_dec (A - B) 0) as [H0|Hne].
    + right. replace (B - A) with 0 by lia. rewrite H0. split; reflexivity.
    + left. replace (B - A) with (- (A - B)) by lia.
      apply binary_normalize_opp, Hne.
Qed.

Local Open Scope float_scope.

Lemma SFeqb_finite_refl (s : bool) (m : positive) (e : Z) :
  SFeqb (S754_finite s m e) (S754_finite s m e) = true.
Proof.
  unfold SFeqb, SFcompare. rewrite Z.compare_refl, Pos.compare_cont_refl.
  destruct s; reflexivity.
Qed.

Lemma float_opp_involutive (x : float) : - - x = x.
Proof.
  apply Prim2SF_inj. rewrite !FloatAxioms.opp_spec.
  destruct (Prim2SF x) as [[]|[]| |[] m e]; reflexivity.
Qed.

Lemma float_abs_opp (x : float) : PrimFloat.abs (- x) = PrimFloat.abs x.
Proof.
  apply Prim2SF_inj. rewrite !FloatAxioms.abs_spec, FloatAxioms.opp_spec.
  destruct (Prim2SF x) as [[]|[]| |[] m e]; reflexivity.
Qed.

(** The classification of a float, read off its specification value. *)
Lemma is_nan_spec (x : float) :
  PrimFloat.is_nan x = match Prim2SF x with S754_nan => true | _ => false end.
Proof.
  unfold PrimFloat.is_nan. rewrite FloatAxioms.eqb_spec.
  destruct (Prim2SF x) as [[]|[]| |s m e]; try reflexivity.
  rewrite SFeqb_finite_refl. reflexivity.
Qed.

Lemma is_infinity_spec (x : float) :
  PrimFloat.is_infinity x = match Prim2SF x with S754_infinity _ => true | _ => false end.
Proof.
  unfold PrimFloat.is_infinity. rewrite FloatAxioms.eqb_spec, FloatAxioms.abs_spec.
  change (Prim2SF infinity) with (S754_infinity false).
  destruct (Prim2SF x) as [[]|[]| |s m e]; reflexivity.
Qed.

Lemma is_zero_spec (x : float) :
  PrimFloat.is_zero x = match Prim2SF x with S754_zero _ => true | _ => false end.
Proof.
  unfold PrimFloat.is_zero. rewrite FloatAxioms.eqb_spec.
  change (Prim2SF zero) with (S754_zero false).
  destruct (Prim2SF x) as [[]|[]| |[] m e]; reflexivity.
Qed.

Lemma ltb_zero_spec (x : float) :
  PrimFloat.ltb x 0
  = match Prim2SF x with
    | S754_infinity s | S754_finite s _ _ => s
    | _ => false
    end.
Proof.
  rewrite FloatAxioms.ltb_spec. change (Prim2SF 0) with (S754_zero false).
  destruct (Prim2SF x) as [[]|[]| |[] m e]; reflexivity.
Qed.

(** [x ** 2] is the same for a float and its opposite. *)
Lemma pow2_opp (libm_pow2 : float -> result float) (x : float) :
  PyFloat.pow2 libm_pow2 (- x) = PyFloat.pow2 libm_pow2 x.
Proof.
  unfold PyFloat.pow2.
  rewrite !is_nan_spec, !is_infinity_spec, !is_zero_spec, !ltb_zero_spec.
  rewrite float_abs_opp, float_opp_involutive, FloatAxioms.opp_spec.
  destruct (Prim2SF x) as [s|s| |s m e] eqn:E; cbn [SFopp]; try reflexivity.
  - f_equal. apply Prim2SF_inj. rewrite FloatAxioms.opp_spec, E. reflexivity.
  - destruct s; reflexivity.
Qed.

Lemma pow2_sub_swap (libm_pow2 : float -> result float) (a b : float) :
  PyFloat.pow2 libm_pow2 (a - b) = PyFloat.pow2 libm_pow2 (b - a).
Proof.
  destruct (SFsub_swap (Prim2SF a) (Prim2SF b)) as [H|[H1 H2]].
  - assert (E : b - a = - (a - b)).
    { apply Prim2SF_inj. rewrite FloatAxioms.opp_spec, !FloatAxioms.sub_spec. exact H. }
    rewrite E. symmetry. apply pow2_opp.
  - assert (E : b - a = a - b).
    { apply Prim2SF_inj. rewrite !FloatAxioms.sub_spec. unfold SF64sub.
      rewrite H1, H2. reflexivity. }
    rewrite E. reflexivity.
Qed.

(** A finite float minus itself is the positive zero. *)
Lemma sub_diag_finite (x : float) :
  PrimFloat.is_finite x = true -> x - x = 0.
Proof.
  unfold PrimFloat.is_finite. rewrite is_nan_spec, is_infinity_spec. intros Hf.
  apply Prim2SF_inj. rewrite FloatAxioms.sub_spec.
  change (Prim2SF 0) with (S754_zero false). unfold SF64sub.
  destruct (Prim2SF x) as [[]|[]| |s m e]; try discriminate Hf; try reflexivity.
  cbn [SFsub]. rewrite Z.sub_diag. reflexivity.
Qed.

End MoreFloatFacts.

(** ** Distances *)

Section DistanceFacts.

Variable libm_pow2 : float -> result float.

(** X1. [calculate_distance] is symmetric: swapping the two points gives
    the same distance, or the same failure, whatever the floats are. *)
Theorem calculate_distance_sym (point1 point2 : float * float) :
  calculate_distance libm_pow2 point1 point2
  = calculate_distance libm_pow2 point2 point1.
Proof.
  unfold calculate_distance.
  rewrite (pow2_sub_swap libm_pow2 (fst point1) (fst point2)).
  rewrite (pow2_sub_swap libm_pow2 (snd point1) (snd point2)).
  reflexivity.
Qed.

(** X2. The distance from a point with finite coordinates to itself is 0,
    and computing it never raises. *)
Theorem calculate_distance_diag (point : float * float) :
  PrimFloat.is_finite (fst point) = true ->
  PrimFloat.is_finite (snd point) = true ->
  calculate_distance libm_pow2 point point = Ok 0.
Proof.
  intros Hx Hy. unfold calculate_distance.
  rewrite (sub_diag_finite _ Hx), (sub_diag_finite _ Hy). reflexivity.
Qed.

End DistanceFacts.

Lemma calculate_distance_diag_witness :
  calculate_distance PyFloat.ieee_pow2 (200, 75) (200, 75) = Ok 0.
Proof.
  apply (calculate_distance_diag PyFloat.ieee_pow2 (200, 75)); reflexivity.
Defined.

(** ** Extraction, in full *)

Section MoreMeasureFacts.

Variable libm_pow2 : float -> result float.
Variable round1 : float -> float.

(** The dict the extraction returns, entry by entry. *)
Lemma extract_measurements_value (self : AITailorSystem) (lms : landmarks) (fr : frame)
    (ls rs lw lh rh la : landmark) (d1 d2 d3 d4 d5 : float) :
  PrimFloat.is_zero (pixel_to_cm_ratio self) = false ->
  lms !! 11%nat = Some ls -> lms !! 12%nat = Some rs -> lms !! 15%nat = Some lw ->
  lms !! 23%nat = Some lh -> lms !! 24%nat = Some rh -> lms !! 27%nat = Some la ->
  let px := to_pixels (width fr) (height fr) in
  calculate_distance libm_pow2 (px ls) (px rs) = Ok d1 ->
  calculate_distance libm_pow2 (px ls) (px lw) = Ok d2 ->
  calculate_distance libm_pow2 (px ls) (px lh) = Ok d3 ->
  calculate_distance libm_pow2 (px lh) (px la) = Ok d4 ->
  calculate_distance libm_pow2 (px lh) (px rh) = Ok d5 ->
  let cm (d : float) := round1 (d * pixel_to_cm_ratio self)%float in
  extract_measurements libm_pow2 round1 self (Sequence lms) fr
  = Some (measurement_dict (cm d1) (cm d2) (cm d3) (cm d4) (cm d5) (cm d4)).
Proof.
  intros Hz Hls Hrs Hlw Hlh Hrh Hla px D1 D2 D3 D4 D5 cm.
  unfold extract_measurements, extract_try. rewrite Hz.
  rewrite !pixel_point_left_shoulder, !pixel_point_right_shoulder,
    !pixel_point_left_wrist, !pixel_point_left_hip,
    !pixel_point_right_hip, !pixel_point_left_ankle.
  rewrite Hls, Hrs, Hlw, Hlh, Hrh, Hla. cbn [bind].
  subst px. rewrite D1. cbn [bind]. rewrite D2. cbn [bind]. rewrite D3. cbn [bind].
  rewrite D4. cbn [bind]. rewrite D5. cbn [bind]. reflexivity.
Qed.

(** On a sequence of landmarks, the extraction returns a dict exactly
    when the scale factor is not zero, the six required landmarks are
    present and no squared pixel difference is out of range. *)
Lemma extract_measurements_sequence_iff (self : AITailorSystem) (lms : landmarks)
    (fr : frame) :
  is_Some (extract_measurements libm_pow2 round1 self (Sequence lms) fr)
  <-> PrimFloat.is_zero (pixel_to_cm_ratio self) = false
      /\ required_present lms = true
      /\ distances_in_range libm_pow2 lms fr = true.
Proof.
  split.
  - intros [m E]. unfold extract_measurements in E.
    destruct (PrimFloat.is_zero (pixel_to_cm_ratio self)) eqn:Hz; [discriminate E|].
    split; [reflexivity|].
    destruct (extract_try _ _ _ _ _ _) as [m'|] eqn:T; [clear E|discriminate E].
    unfold extract_try in T.
    rewrite !pixel_point_left_shoulder, !pixel_point_right_shoulder,
      !pixel_point_left_wrist, !pixel_point_left_hip,
      !pixel_point_right_hip, !pixel_point_left_ankle in T.
    destruct (lms !! 11%nat) as [ls|] eqn:Hls; [|discriminate T].
    destruct (lms !! 12%nat) as [rs|] eqn:Hrs; [|discriminate T].
    cbn [bind] in T.
    destruct (calculate_distance _ (to_pixels _ _ ls) (to_pixels _ _ rs)) eqn:D1;
      [|discriminate T].
    cbn [bind] in T.
    destruct (lms !! 15%nat) as [lw|] eqn:Hlw; [|discriminate T].
    cbn [bind] in T.
    destruct (calculate_distance _ (to_pixels _ _ ls) (to_pixels _ _ lw)) eqn:D2;
      [|discriminate T].
    cbn [bind] in T.
    destruct (lms !! 23%nat) as [lh|] eqn:Hlh; [|discriminate T].
    cbn [bind] in T.
    destruct (calculate_distance _ (to_pixels _ _ ls) (to_pixels _ _ lh)) eqn:D3;
      [|discriminate T].
    cbn [bind] in T.
    destruct (lms !! 27%nat) as [la|] eqn:Hla; [|discriminate T].
    cbn [bind] in T.
    destruct (calculate_distance _ (to_pixels _ _ lh) (to_pixels _ _ la)) eqn:D4;
      [|discriminate T].
    cbn [bind] in T.
    destruct (lms !! 24%nat) as [rh|] eqn:Hrh; [|discriminate T].
    cbn [bind] in T.
    destruct (calculate_distance _ (to_pixels _ _ lh) (to_pixels _ _ rh)) eqn:D5;
      [|discriminate T].
    split.
    + unfold required_present, required_landmarks. cbn [forallb].
      rewrite Hls, Hrs, Hlw, Hlh, Hrh, Hla. reflexivity.
    + unfold distances_in_range, measured_pairs. cbn [forallb fst snd].
      rewrite Hls, Hrs, Hlw, Hlh, Hrh, Hla, D1, D2, D3, D4, D5. reflexivity.
  - intros (Hz & Hp & Hd).
    destruct (required_present_lookup lms Hp)
      as (ls & rs & lw & lh & rh & la & Hls & Hrs & Hlw & Hlh & Hrh & Hla).
    unfold distances_in_range, measured_pairs in Hd. cbn [forallb fst snd] in Hd.
    rewrite Hls, Hrs, Hlw, Hlh, Hrh, Hla in Hd.
    rewrite !andb_true_iff in Hd. destruct Hd as (D1 & D2 & D3 & D4 & D5 & _).
    destruct (calculate_distance _ (to_pixels _ _ ls) (to_pixels _ _ rs)) as [d1|] eqn:E1;
      [|discriminate D1].
    destruct (calculate_distance _ (to_pixels _ _ ls) (to_pixels _ _ lw)) as [d2|] eqn:E2;
      [|discriminate D2].
    destruct (calculate_distance _ (to_pixels _ _ ls) (to_pixels _ _ lh)) as [d3|] eqn:E3;
      [|discriminate D3].
    destruct (calculate_distance _ (to_pixels _ _ lh) (to_pixels _ _ la)) as [d4|] eqn:E4;
      [|discriminate D4].
    destruct (calculate_distance _ (to_pixels _ _ lh) (to_pixels _ _ rh)) as [d5|] eqn:E5;
      [|discriminate D5].
    rewrite (extract_measurements_value self lms fr ls rs lw lh rh la d1 d2 d3 d4 d5)
      by assumption.
    eauto.
Qed.

(** X3. [extract_measurements] returns a dict exactly when the object it
    is given as landmarks is a sequence that can be indexed, the scale
    factor is not zero, the six required landmarks are present in the
    sequence and no squared pixel difference is out of range: an object
    that cannot be indexed (the detector's landmark list message), a zero
    scale factor, a missing landmark and a power out of range are all the
    ways it can fail, and none of the four can be dispensed with. *)
Theorem extract_measurements_succeeds_iff (self : AITailorSystem)
    (obj : landmarks_object) (fr : frame) :
  is_Some (extract_measurements libm_pow2 round1 self obj fr)
  <-> exists lms : landmarks,
        obj = Sequence lms
        /\ PrimFloat.is_zero (pixel_to_cm_ratio self) = false
        /\ required_present lms = true
        /\ distances_in_range libm_pow2 lms fr = true.
Proof.
  destruct obj as [items|items].
  - rewrite extract_measurements_landmark_list. split.
    + intros [m E]. discriminate E.
    + intros (lms & E & _). discriminate E.
  - rewrite extract_measurements_sequence_iff. split.
    + intros H. exists items. split; [reflexivity | exact H].
    + intros (lms & E & H). injection E as ->. exact H.
Qed.

End MoreMeasureFacts.

(** ** Calibration over the life of the system *)

Section CalibrationInvariant.

Variable libm_pow2 : float -> result float.
Variable round1 : float -> float.

(** A scale factor that is a positive finite float. *)
Lemma positive_finite_spec (x : float) (m : positive) (e : Z) :
  Prim2SF x = S754_finite false m e ->
  PrimFloat.ltb 0 x = true /\ PrimFloat.is_finite x = true /\ PrimFloat.is_zero x = false.
Proof.
  intros E. unfold PrimFloat.is_finite.
  rewrite is_nan_spec, is_infinity_spec, is_zero_spec, FloatAxioms.ltb_spec, E.
  change (Prim2SF 0) with (S754_zero false). repeat split; reflexivity.
Qed.

Lemma calibrated_ratio_spec (self : AITailorSystem) :
  reachable libm_pow2 round1 self ->
  calibrated self = true ->
  exists m e, Prim2SF (pixel_to_cm_ratio self) = S754_finite false m e.
Proof.
  induction 1 as [|fr self _ IH|pose fr self _ IH|env u m self files _ IH].
  - discriminate.
  - destruct (calibrate_system_cases fr self) as [[_ ->]|[Hw ->]]; cbn [state_after].
    + exact IH.
    + intros _. apply scale_factor_finite, Hw.
  - unfold process_frame. destruct (calibrated self) eqn:Hc.
    + destruct (cvtColor_BGR2RGB fr); [destruct pose|]; cbn; intros _; apply IH;
        reflexivity.
    + destruct (calibrate_system_cases fr self) as [[_ ->]|[Hw ->]].
      * cbn. rewrite Hc. discriminate.
      * destruct (cvtColor_BGR2RGB fr); [destruct pose|]; cbn; intros _;
          apply scale_factor_finite, Hw.
  - rewrite save_measurements_unfold.
    destruct (can_open env (history_file u)); cbn; exact IH.
Qed.

(** X4. In every state the system goes through, once it is calibrated its
    scale factor is a positive finite number: never zero, negative,
    infinite or NaN.  So the zero guard of [extract_measurements] is only
    ever taken before the first calibration. *)
Theorem calibrated_scale_factor_positive (self : AITailorSystem) :
  reachable libm_pow2 round1 self ->
  calibrated self = true ->
  PrimFloat.ltb 0 (pixel_to_cm_ratio self) = true
  /\ PrimFloat.is_finite (pixel_to_cm_ratio self) = true
  /\ PrimFloat.is_zero (pixel_to_cm_ratio self) = false.
Proof.
  intros Hr Hc. destruct (calibrated_ratio_spec self Hr Hc) as (m & e & E).
  apply (positive_finite_spec _ m e E).
Qed.

(** X5. In every state the system goes through, the system is calibrated
    exactly when its scale factor is not zero: the flag [calibrated] and
    the test [pixel_to_cm_ratio == 0] never disagree. *)
Theorem calibrated_iff_ratio_nonzero (self : AITailorSystem) :
  reachable libm_pow2 round1 self ->
  (calibrated self = true <-> PrimFloat.is_zero (pixel_to_cm_ratio self) = false).
Proof.
  intros Hr. split.
  - intros Hc. destruct (calibrated_ratio_spec self Hr Hc) as (m & e & E).
    apply (positive_finite_spec _ m e E).
  - intros Hz. destruct (calibrated self) eqn:Hc; [reflexivity|].
    rewrite (uncalibrated_ratio_zero libm_pow2 round1 self Hr Hc) in Hz.
    discriminate Hz.
Qed.

End CalibrationInvariant.

Lemma calibrated_scale_factor_positive_witness :
  PrimFloat.ltb 0
    (pixel_to_cm_ratio (state_after (calibrate_system Sample.a_frame init))) = true.
Proof.
  apply (calibrated_scale_factor_positive PyFloat.ieee_pow2 PyFloat.np_round1
           (state_after (calibrate_system Sample.a_frame init))).
  - apply reachable_calibrate_system, reachable_init.
  - reflexivity.
Defined.

Lemma calibrated_iff_ratio_nonzero_witness :
  calibrated (state_after (calibrate_system Sample.a_frame init)) = true
  <-> PrimFloat.is_zero
        (pixel_to_cm_ratio (state_after (calibrate_system Sample.a_frame init))) = false.
Proof.
  apply (calibrated_iff_ratio_nonzero PyFloat.ieee_pow2 PyFloat.np_round1
           (state_after (calibrate_system Sample.a_frame init))).
  apply reachable_calibrate_system, reachable_init.
Defined.

(** ** The routes *)

Section RouteFacts.

Variable libm_pow2 : float -> result float.
Variable round1 : float -> float.

(** What [process_frame] returns when it returns: the colour conversion
    went through, and the measurement is the [None] of the extraction on
    the detector's message or of the branch without a body. *)
Lemma process_frame_returned (pose_landmarks : option landmarks) (fr : frame)
    (self self' : AITailorSystem) (success : bool) (measurements : option measurement_set) :
  process_frame libm_pow2 round1 pose_landmarks fr self = Return (success, measurements) self' ->
  calibrated self' = true
  /\ measurements_data self' = measurements_data self
  /\ is_ok (cvtColor_BGR2RGB fr) = true
  /\ measurements = None
  /\ match pose_landmarks with
     | Some items =>
         success = true
         /\ measurements
            = extract_measurements libm_pow2 round1 self' (LandmarkList items) fr
         /\ current_measurements self' = measurements
     | None =>
         success = false
         /\ current_measurements self' = current_measurements self
     end.
Proof.
  unfold process_frame. destruct (calibrated self) eqn:Hc.
  - destruct (cvtColor_BGR2RGB fr); [|discriminate].
    destruct pose_landmarks; rewrite ?extract_measurements_landmark_list;
      intros [= <- <- <-]; cbn; rewrite Hc; repeat split.
  - destruct (calibrate_system_cases fr self) as [[_ ->]|[Hw ->]]; [discriminate|].
    destruct (cvtColor_BGR2RGB fr); [|discriminate].
    destruct pose_landmarks; rewrite ?extract_measurements_landmark_list;
      intros [= <- <- <-]; cbn; repeat split.
Qed.

(** The response of [/measure], when it returns, is the failure response. *)
Lemma measure_returned (camera : option frame) (pose_landmarks : option landmarks)
    (self self' : AITailorSystem) (response : option measurement_set) :
  measure libm_pow2 round1 camera pose_landmarks self = Return response self' ->
  response = None.
Proof.
  unfold measure. destruct camera as [fr|]; [|intros [= <- _]; reflexivity].
  destruct (process_frame libm_pow2 round1 pose_landmarks fr self)
    as [[success measurements] s1|e s1] eqn:P; [|discriminate].
  destruct (process_frame_returned _ _ _ _ _ _ P) as (_ & _ & _ & -> & _).
  rewrite andb_false_r. intros [= <- _]. reflexivity.
Qed.

(** X6. [/measure] never reports success.  Whatever the camera delivers
    and the detector finds, a call that returns answers
    [{'success': False}]: [process_frame] hands the extraction the
    detector's message, which cannot be indexed, so no measurement comes
    back.  With a frame that the colour conversion accepts and a body
    found, on a system that is calibrated or with a frame of positive
    width, the call does return; the system is calibrated afterwards and
    its current measurement is [None]. *)
Theorem measure_reports_no_measurement (camera : option frame)
    (pose_landmarks : option landmarks) (self : AITailorSystem) :
  (forall (response : option measurement_set) (self' : AITailorSystem),
     measure libm_pow2 round1 camera pose_landmarks self = Return response self' ->
     response = None)
  /\ (forall (fr : frame) (items : landmarks),
        camera = Some fr -> pose_landmarks = Some items ->
        calibrated self = true \/ (0 < Uint63.to_Z (width fr))%Z ->
        is_ok (cvtColor_BGR2RGB fr) = true ->
        exists self' : AITailorSystem,
          measure libm_pow2 round1 camera pose_landmarks self = Return None self'
          /\ calibrated self' = true
          /\ current_measurements self' = None).
Proof.
  split; [intros response self'; apply measure_returned|].
  intros fr items -> -> Hcal Hconv. unfold measure.
  assert (E : exists s0 : AITailorSystem,
            calibrated s0 = true
            /\ process_frame libm_pow2 round1 (Some items) fr self
               = process_frame libm_pow2 round1 (Some items) fr s0).
  { destruct (calibrated self) eqn:Hc; [exists self; auto|].
    destruct Hcal as [Hcal|Hw]; [discriminate Hcal|].
    eexists. split; [|apply (process_frame_uncalibrated _ _ _ _ _ Hc Hw)]. reflexivity. }
  destruct E as (s0 & Hc0 & ->).
  rewrite process_frame_calibrated by exact Hc0.
  destruct (cvtColor_BGR2RGB fr); [|discriminate Hconv].
  rewrite extract_measurements_landmark_list. cbn.
  eexists. split; [reflexivity|]. split; [exact Hc0|reflexivity].
Qed.

(** X7. [/measure] reports failure, without raising, exactly in these
    cases: the camera delivered no frame (and then the system is left as
    it was), or the frame was processed and no body was found or the
    extraction failed. *)
Theorem measure_failure (camera : option frame) (pose_landmarks : option landmarks)
    (self self' : AITailorSystem) :
  measure libm_pow2 round1 camera pose_landmarks self = Return None self' <->
  (camera = None /\ self' = self)
  \/ (exists (fr : frame) (success : bool),
        camera = Some fr
        /\ process_frame libm_pow2 round1 pose_landmarks fr self
           = Return (success, None) self'
        /\ (pose_landmarks = None \/ current_measurements self' = None)).
Proof.
  unfold measure. split.
  - destruct camera as [fr|]; [|intros [= <-]; auto].
    destruct (process_frame libm_pow2 round1 pose_landmarks fr self)
      as [[success measurements] s1|e s1] eqn:P; [|discriminate].
    destruct (process_frame_returned _ _ _ _ _ _ P) as (_ & _ & _ & -> & Hp).
    rewrite andb_false_r. intros [= <-]. right. exists fr, success.
    split; [reflexivity|]. split; [exact P|].
    destruct pose_landmarks; [right|left; reflexivity]. apply Hp.
  - intros [[-> ->]|(fr & success & -> & -> & _)]; [reflexivity|].
    rewrite andb_false_r. reflexivity.
Qed.

(** X8. [/calibrate] reports success exactly when the camera delivered a
    frame of positive width, and the system then holds the scale factor
    of that frame whatever it held before; with no frame it reports
    failure and leaves the system as it was; a frame without columns
    makes it raise. *)
Theorem calibrate_route (camera : option frame) (self : AITailorSystem) :
  (returned (calibrate camera self) = Some true
   <-> exists fr : frame, camera = Some fr /\ (0 < Uint63.to_Z (width fr))%Z)
  /\ (forall fr : frame,
        camera = Some fr -> (0 < Uint63.to_Z (width fr))%Z ->
        state_after (calibrate camera self)
        = set_calibration (15.5 / (PyFloat.of_int (width fr) / 8)) self)
  /\ (camera = None -> calibrate camera self = Return false self)
  /\ (forall fr : frame,
        camera = Some fr -> width fr = 0%uint63 ->
        calibrate camera self = Raise ZeroDivisionError self).
Proof.
  unfold calibrate. repeat split.
  - destruct camera as [fr|]; [|discriminate].
    destruct (calibrate_system_cases fr self) as [[_ ->]|[Hw ->]]; [discriminate|].
    eauto.
  - intros (fr & -> & Hw). rewrite (calibrate_system_positive fr self Hw). reflexivity.
  - intros fr -> Hw. rewrite (calibrate_system_positive fr self Hw). reflexivity.
  - intros ->. reflexivity.
  - intros fr -> E.
    destruct (calibrate_system_cases fr self) as [[_ ->]|[Hw _]]; [reflexivity|].
    rewrite E in Hw. discriminate Hw.
Qed.

End RouteFacts.

Lemma measure_reports_no_measurement_witness :
  exists self' : AITailorSystem,
    measure PyFloat.ieee_pow2 PyFloat.np_round1
      (Some Sample.a_frame) (Some Sample.body) init = Return None self'
    /\ calibrated self' = true
    /\ current_measurements self' = None.
Proof.
  destruct (measure_reports_no_measurement PyFloat.ieee_pow2 PyFloat.np_round1
              (Some Sample.a_frame) (Some Sample.body) init) as [_ H].
  apply (H Sample.a_frame Sample.body); [reflexivity | reflexivity | | reflexivity].
  right. reflexivity.
Defined.

(** ** Histories and files *)

Lemma string_length_app (x s : string) :
  String.length (x +:+ s) = (String.length x + String.length s)%nat.
Proof. induction x as [|a x IH]; simpl; [reflexivity | rewrite IH; reflexivity]. Qed.

Lemma string_app_inj_r (s : string) : forall x y : string, x +:+ s = y +:+ s -> x = y.
Proof.
  induction x as [|a x IH]; intros [|b y] E.
  - reflexivity.
  - apply (f_equal String.length) in E. rewrite !string_length_app in E. simpl in E. lia.
  - apply (f_equal String.length) in E. rewrite !string_length_app in E. simpl in E. lia.
  - change (String a (x +:+ s) = String b (y +:+ s)) in E.
    injection E as -> E. f_equal. apply IH, E.
Qed.

Lemma history_file_inj (u u' : string) : history_file u = history_file u' -> u = u'.
Proof.
  unfold history_file. intros E.
  apply (String.app_inj "measurements_") in E. apply (string_app_inj_r ".json"), E.
Qed.

(** X9. Two users never share a history file, and a save for one user
    leaves the file and the in-memory history of every other user as they
    were. *)
Theorem save_measurements_other_users (env : Env) (u u' : string) (m : measurement_set)
    (w : World) :
  u' <> u ->
  let w' := state_after (save_measurements env u m w) in
  history_file u' <> history_file u
  /\ disk w' !! history_file u' = disk w !! history_file u'
  /\ history_of u' w' = history_of u' w.
Proof.
  intros Hne. cbv zeta.
  assert (Hf : history_file u' <> history_file u)
    by (intros E; apply Hne, history_file_inj, E).
  split; [exact Hf|]. rewrite save_measurements_unfold. unfold history_of.
  destruct (can_open env (history_file u)); cbn [state_after system disk measurements_data
    set_measurements_data]; rewrite ?lookup_insert_ne by congruence; auto.
Qed.

Lemma save_measurements_other_users_witness :
  disk (state_after (save_measurements Sample.first_call "Alice" Sample.M1 Sample.fresh_world))
    !! history_file "Bob" = None.
Proof.
  apply (save_measurements_other_users Sample.first_call "Alice" "Bob" Sample.M1
           Sample.fresh_world).
  discriminate.
Defined.

Lemma save_all_snoc (u : string) (saves : list (Env * measurement_set))
    (last : Env * measurement_set) (w : World) :
  save_all u (saves ++ [last]) w
  = state_after (save_measurements (fst last) u (snd last) (save_all u saves w)).
Proof. unfold save_all. rewrite fold_left_app. reflexivity. Qed.

Lemma save_all_history (u : string) (saves : list (Env * measurement_set)) :
  forall w : World,
    history_of u (save_all u saves w) = history_of u w ++ map record_of saves.
Proof.
  induction saves as [|last saves IH] using rev_ind; intros w.
  - cbn. rewrite app_nil_r. reflexivity.
  - rewrite save_all_snoc, map_app. unfold history_of at 1.
    rewrite save_measurements_history. fold (history_of u (save_all u saves w)).
    rewrite IH, <- app_assoc. reflexivity.
Qed.

(** X10. After any number of saves for a user, the in-memory history is
    the one from before followed by one record per call, in the order of
    the calls, also for the calls that could not write their file; and
    whenever the last call could open the file, the file holds that whole
    history, the records of earlier failed calls included. *)
Theorem save_all_persists (u : string) (saves : list (Env * measurement_set))
    (last : Env * measurement_set) (w : World) :
  can_open (fst last) (history_file u) = true ->
  let w' := save_all u (saves ++ [last]) w in
  history_of u w' = history_of u w ++ map record_of saves ++ [record_of last]
  /\ disk w' !! history_file u = Some (history_of u w').
Proof.
  intros Ho. cbv zeta. split.
  - rewrite save_all_history, map_app. reflexivity.
  - rewrite save_all_snoc. unfold history_of.
    rewrite save_measurements_history. rewrite save_measurements_unfold, Ho.
    cbn [state_after disk default]. rewrite lookup_insert_eq. reflexivity.
Qed.

Lemma save_all_persists_witness :
  let cannot_write := {| clock_now := "2026-11-01 01:59:58"; can_open := fun _ => false |} in
  disk (save_all "Alice" ([(cannot_write, Sample.M1)] ++ [(Sample.a_minute_later, Sample.M2)])
          Sample.fresh_world)
    !! history_file "Alice"
  = Some [ {| timestamp := "2026-11-01 01:59:58"; measurements := Sample.M1 |};
           {| timestamp := "2026-11-01 02:00:58"; measurements := Sample.M2 |} ].
Proof.
  cbv zeta.
  apply (save_all_persists "Alice"
           [({| clock_now := "2026-11-01 01:59:58"; can_open := fun _ => false |}, Sample.M1)]
           (Sample.a_minute_later, Sample.M2) Sample.fresh_world).
  reflexivity.
Defined.

(** ** The application over its requests *)

Section ServeFacts.

Variable libm_pow2 : float -> result float.
Variable round1 : float -> float.

Lemma calibrate_state (camera : option frame) (self : AITailorSystem) :
  state_after (calibrate camera self) = self
  \/ exists fr : frame,
       camera = Some fr /\ (0 < Uint63.to_Z (width fr))%Z
       /\ state_after (calibrate camera self)
          = set_calibration (15.5 / PyFloat.int_truediv_8 (width fr)) self.
Proof.
  unfold calibrate. destruct camera as [fr|]; [|left; reflexivity].
  destruct (calibrate_system_cases fr self) as [[_ ->]|[Hw ->]]; [left; reflexivity|].
  right. exists fr. auto.
Qed.

(** The state after [/measure]: the system, calibrated from the frame if
    it was not, with or without a new current measurement. *)
Lemma measure_state (camera : option frame) (pose_landmarks : option landmarks)
    (self : AITailorSystem) :
  exists self1 : AITailorSystem,
    (self1 = self
     \/ exists fr : frame,
          calibrated self = false /\ camera = Some fr
          /\ self1 = set_calibration (15.5 / PyFloat.int_truediv_8 (width fr)) self)
    /\ (state_after (measure libm_pow2 round1 camera pose_landmarks self) = self1
        \/ exists o : option measurement_set,
             state_after (measure libm_pow2 round1 camera pose_landmarks self)
             = set_current_measurements o self1).
Proof.
  unfold measure. destruct camera as [fr|]; [|exists self; auto].
  assert (Hcal : forall s0 : AITailorSystem,
            calibrated s0 = true ->
            let out := process_frame libm_pow2 round1 pose_landmarks fr s0 in
            state_after
              match out with
              | Return (success, measurements) self' =>
                  if success && truthy measurements then Return measurements self'
                  else Return None self'
              | Raise e self' => Raise e self'
              end = s0
            \/ exists o : option measurement_set,
                 state_after
                   match out with
                   | Return (success, measurements) self' =>
                       if success && truthy measurements then Return measurements self'
                       else Return None self'
                   | Raise e self' => Raise e self'
                   end = set_current_measurements o s0).
  { intros s0 H0. cbv zeta. rewrite process_frame_calibrated by exact H0.
    destruct (cvtColor_BGR2RGB fr); [|left; reflexivity].
    destruct pose_landmarks as [items|]; [|left; reflexivity].
    rewrite extract_measurements_landmark_list. right. exists None. reflexivity. }
  destruct (calibrated self) eqn:Hc.
  - exists self. split; [auto|]. apply Hcal, Hc.
  - destruct (calibrate_system_cases fr self) as [[_ E]|[Hw _]].
    + exists self. split; [auto|]. unfold process_frame. rewrite Hc, E. left. reflexivity.
    + eexists. split; [right; exists fr; auto|].
      rewrite (process_frame_uncalibrated _ _ _ _ _ Hc Hw). apply Hcal. reflexivity.
Qed.

(** The state after [/save]: that of [save_measurements] when the request
    has both keys, the state before otherwise. *)
Lemma save_route_state (env : Env) (data : save_request) (w : World) :
  state_after (save env data w)
  = match req_user data, req_measurements data with
    | Some u, Some m => state_after (save_measurements env u m w)
    | _, _ => w
    end.
Proof.
  unfold save. destruct (req_user data) as [u|]; [|reflexivity].
  destruct (req_measurements data) as [m|]; [|reflexivity].
  destruct (save_measurements env u m w); reflexivity.
Qed.

Lemma save_route_system (env : Env) (data : save_request) (w : World) :
  pixel_to_cm_ratio (system (state_after (save env data w))) = pixel_to_cm_ratio (system w)
  /\ calibrated (system (state_after (save env data w))) = calibrated (system w)
  /\ current_measurements (system (state_after (save env data w)))
     = current_measurements (system w).
Proof.
  rewrite save_route_state. destruct (req_user data) as [u|]; [|auto].
  destruct (req_measurements data) as [m|]; [|auto].
  rewrite save_measurements_unfold.
  destruct (can_open env (history_file u)); cbn; auto.
Qed.

(** X11. Serving [/calibrate] or [/measure] never changes a history or a
    file, and serving [/save] never changes the calibration or the current
    measurement, whether the route returns or raises. *)
Theorem serve_frame_conditions (r : request) (w : World) :
  let w' := serve libm_pow2 round1 r w in
  match r with
  | GetCalibrate _ | GetMeasure _ _ =>
      measurements_data (system w') = measurements_data (system w)
      /\ disk w' = disk w
  | PostSave _ _ =>
      pixel_to_cm_ratio (system w') = pixel_to_cm_ratio (system w)
      /\ calibrated (system w') = calibrated (system w)
      /\ current_measurements (system w') = current_measurements (system w)
  end.
Proof.
  cbv zeta. destruct r as [camera|camera pose|env data]; cbn [serve system disk].
  - split; [|reflexivity].
    destruct (calibrate_state camera (system w)) as [->|(fr & _ & _ & ->)]; reflexivity.
  - split; [|reflexivity].
    destruct (measure_state camera pose (system w))
      as (s1 & [->|(fr & _ & _ & ->)] & [->|[o ->]]); reflexivity.
  - apply save_route_system.
Qed.

Lemma serve_calibrated (r : request) (w : World) :
  calibrated (system w) = true ->
  calibrated (system (serve libm_pow2 round1 r w)) = true
  /\ (is_calibrate r = false ->
      pixel_to_cm_ratio (system (serve libm_pow2 round1 r w))
      = pixel_to_cm_ratio (system w)).
Proof.
  intros Hc. destruct r as [camera|camera pose|env data]; cbn [serve system is_calibrate].
  - split; [|discriminate].
    destruct (calibrate_state camera (system w)) as [->|(fr & _ & _ & ->)];
      [exact Hc | reflexivity].
  - destruct (measure_state camera pose (system w))
      as (s1 & [->|(fr & Hf & _)] & [->|[o ->]]); try congruence; cbn; auto.
  - destruct (save_route_system env data w) as (Hr & Hcal & _).
    rewrite Hcal. auto.
Qed.

Lemma serve_all_snoc (rs : list request) (r : request) (w : World) :
  serve_all libm_pow2 round1 (rs ++ [r]) w
  = serve libm_pow2 round1 r (serve_all libm_pow2 round1 rs w).
Proof. unfold serve_all. rewrite fold_left_app. reflexivity. Qed.

(** X12. A calibrated system stays calibrated under every sequence of
    requests, and its scale factor is changed by [/calibrate] only:
    [/measure] on a calibrated system never recalibrates, whatever the
    width of the frame it is given. *)
Theorem calibration_is_kept (rs : list request) (w : World) :
  calibrated (system w) = true ->
  calibrated (system (serve_all libm_pow2 round1 rs w)) = true
  /\ (forallb (fun r => negb (is_calibrate r)) rs = true ->
      pixel_to_cm_ratio (system (serve_all libm_pow2 round1 rs w))
      = pixel_to_cm_ratio (system w)).
Proof.
  intros Hc. induction rs as [|r rs [IHc IHr]] using rev_ind; [auto|].
  rewrite serve_all_snoc.
  destruct (serve_calibrated r _ IHc) as [H1 H2]. split; [exact H1|].
  rewrite forallb_app. cbn [forallb]. rewrite !andb_true_iff, negb_true_iff.
  intros (Hrs & Hr & _). rewrite (H2 Hr). apply IHr, Hrs.
Qed.

Lemma serve_history (r : request) (w : World) (u : string) :
  history_of u w `prefix_of` history_of u (serve libm_pow2 round1 r w).
Proof.
  unfold history_of. destruct r as [camera|camera pose|env data]; cbn [serve system].
  - destruct (calibrate_state camera (system w)) as [->|(fr & _ & _ & ->)]; reflexivity.
  - destruct (measure_state camera pose (system w))
      as (s1 & [->|(fr & _ & _ & ->)] & [->|[o ->]]); reflexivity.
  - rewrite save_route_state. destruct (req_user data) as [u0|]; [|reflexivity].
    destruct (req_measurements data) as [m|]; [|reflexivity].
    destruct (decide (u0 = u)) as [->|Hne].
    + rewrite save_measurements_history. cbn [default]. apply prefix_app_r. reflexivity.
    + rewrite save_measurements_unfold.
      destruct (can_open env (history_file u0)); cbn; rewrite lookup_insert_ne by exact Hne;
        reflexivity.
Qed.

(** X13. Histories only grow: under every sequence of requests, the
    in-memory history each user had before is a beginning of the one the
    user has after; no record is ever removed, changed or reordered. *)
Theorem histories_only_grow (rs : list request) (w : World) (u : string) :
  history_of u w `prefix_of` history_of u (serve_all libm_pow2 round1 rs w).
Proof.
  induction rs as [|r rs IH] using rev_ind; [reflexivity|].
  rewrite serve_all_snoc. etransitivity; [exact IH | apply serve_history].
Qed.

Lemma serve_persisted_prefix (r : request) (w : World) :
  persisted_prefix w -> persisted_prefix (serve libm_pow2 round1 r w).
Proof.
  intros Hw. destruct r as [camera|camera pose|env data].
  - intros f h Hf. cbn [serve disk] in Hf. destruct (Hw f h Hf) as (u & -> & Hp & Hn).
    exists u. split; [reflexivity|]. split; [|exact Hn].
    etransitivity; [exact Hp | apply serve_history].
  - intros f h Hf. cbn [serve disk] in Hf. destruct (Hw f h Hf) as (u & -> & Hp & Hn).
    exists u. split; [reflexivity|]. split; [|exact Hn].
    etransitivity; [exact Hp | apply serve_history].
  - intros f h Hf.
    assert (Hold : forall u : string,
              h `prefix_of` history_of u w ->
              h `prefix_of` history_of u (serve libm_pow2 round1 (PostSave env data) w))
      by (intros u Hp; etransitivity; [exact Hp | apply serve_history]).
    cbn [serve] in Hf |- *. rewrite save_route_state in Hf |- *.
    destruct (req_user data) as [u0|] eqn:Eu; [|apply Hw, Hf].
    destruct (req_measurements data) as [m|] eqn:Em; [|apply Hw, Hf].
    rewrite save_measurements_unfold in Hf.
    destruct (can_open env (history_file u0)) eqn:Ho; cbn [state_after disk] in Hf.
    + destruct (decide (history_file u0 = f)) as [<-|Hne].
      * rewrite lookup_insert_eq in Hf. injection Hf as <-.
        exists u0. split; [reflexivity|]. unfold history_of.
        rewrite save_measurements_history. cbn [default].
        split; [reflexivity|]. intros E. apply app_eq_nil in E as [_ E]. discriminate E.
      * rewrite lookup_insert_ne in Hf by exact Hne.
        destruct (Hw f h Hf) as (u & -> & Hp & Hn). exists u.
        split; [reflexivity|]. split; [|exact Hn].
        specialize (Hold u Hp). cbn [serve] in Hold.
        rewrite save_route_state, Eu, Em in Hold. exact Hold.
    + destruct (Hw f h Hf) as (u & -> & Hp & Hn). exists u.
      split; [reflexivity|]. split; [|exact Hn].
      specialize (Hold u Hp). cbn [serve] in Hold.
      rewrite save_route_state, Eu, Em in Hold. exact Hold.
Qed.

(** X14. Starting with no files, under every sequence of requests: every
    file there is is the history file of some user and holds a beginning,
    not empty, of that user's in-memory history.  The files never hold a
    record the system does not hold, in another order, or an empty list. *)
Theorem files_are_history_prefixes (rs : list request) (w : World) :
  disk w = ∅ ->
  persisted_prefix (serve_all libm_pow2 round1 rs w).
Proof.
  intros Hd. induction rs as [|r rs IH] using rev_ind.
  - intros f h Hf. cbn in Hf. rewrite Hd, lookup_empty in Hf. discriminate Hf.
  - rewrite serve_all_snoc. apply serve_persisted_prefix, IH.
Qed.

End ServeFacts.

Lemma calibration_is_kept_witness :
  calibrated
    (system (serve_all PyFloat.ieee_pow2 PyFloat.np_round1
               [GetMeasure (Some Sample.empty_frame) (Some Sample.body)]
               {| system := Sample.calibrated_system; disk := ∅ |}))
  = true.
Proof.
  apply (calibration_is_kept PyFloat.ieee_pow2 PyFloat.np_round1
           [GetMeasure (Some Sample.empty_frame) (Some Sample.body)]
           {| system := Sample.calibrated_system; disk := ∅ |}).
  reflexivity.
Defined.

Lemma files_are_history_prefixes_witness :
  persisted_prefix
    (serve_all PyFloat.ieee_pow2 PyFloat.np_round1
       [PostSave Sample.first_call
          {| req_user := Some "Alice"; req_measurements := Some Sample.M1 |}]
       Sample.fresh_world).
Proof.
  apply (files_are_history_prefixes PyFloat.ieee_pow2 PyFloat.np_round1
           [PostSave Sample.first_call
              {| req_user := Some "Alice"; req_measurements := Some Sample.M1 |}]
           Sample.fresh_world).
  reflexivity.
Defined.

(** ** The page and the application together *)

Section SiteFacts.

Variable libm_pow2 : float -> result float.
Variable round1 : float -> float.



Lemma act_all_snoc (acts : list action) (a : action) (s : Site) :
  act_all libm_pow2 round1 (acts ++ [a]) s
  = act libm_pow2 round1 a (act_all libm_pow2 round1 acts s).
Proof. unfold act_all. rewrite fold_left_app. reflexivity. Qed.


End SiteFacts.


(** ** The entries of a measurement, and the fields nothing writes *)

Section EntryFacts.

Variable libm_pow2 : float -> result float.
Variable round1 : float -> float.

(** X16. What each entry of a returned measurement is: with [cm d] the
    pixel distance [d] times the scale factor, rounded, "Shoulder Width" is
    [cm] of left shoulder to right shoulder, "Left Arm Length" of left
    shoulder to left wrist, "Torso Length" of left shoulder to left hip,
    "Inseam" and "Leg Length" of left hip to left ankle, and "Hip Width"
    of left hip to right hip, the landmarks taken in pixels. *)
Theorem extract_measurements_entries (self : AITailorSystem) (lms : landmarks) (fr : frame)
    (ls rs lw lh rh la : landmark) (d1 d2 d3 d4 d5 : float) :
  PrimFloat.is_zero (pixel_to_cm_ratio self) = false ->
  lms !! 11%nat = Some ls -> lms !! 12%nat = Some rs -> lms !! 15%nat = Some lw ->
  lms !! 23%nat = Some lh -> lms !! 24%nat = Some rh -> lms !! 27%nat = Some la ->
  let px := to_pixels (width fr) (height fr) in
  calculate_distance libm_pow2 (px ls) (px rs) = Ok d1 ->
  calculate_distance libm_pow2 (px ls) (px lw) = Ok d2 ->
  calculate_distance libm_pow2 (px ls) (px lh) = Ok d3 ->
  calculate_distance libm_pow2 (px lh) (px la) = Ok d4 ->
  calculate_distance libm_pow2 (px lh) (px rh) = Ok d5 ->
  let cm (d : float) := round1 (d * pixel_to_cm_ratio self)%float in
  exists m : measurement_set,
    extract_measurements libm_pow2 round1 self (Sequence lms) fr = Some m
    /\ m !! "Shoulder Width" = Some (cm d1)
    /\ m !! "Left Arm Length" = Some (cm d2)
    /\ m !! "Torso Length" = Some (cm d3)
    /\ m !! "Inseam" = Some (cm d4)
    /\ m !! "Hip Width" = Some (cm d5)
    /\ m !! "Leg Length" = Some (cm d4).
Proof.
  intros Hz Hls Hrs Hlw Hlh Hrh Hla px D1 D2 D3 D4 D5 cm.
  eexists. split.
  - apply (extract_measurements_value libm_pow2 round1 self lms fr ls rs lw lh rh la
             d1 d2 d3 d4 d5); assumption.
  - repeat split; reflexivity.
Qed.

(** X17. No method ever writes [current_user] or [calibration_distance]:
    in every state the system goes through they are "Guest" and 50, also
    after saves under other names. *)
Theorem unwritten_fields (self : AITailorSystem) :
  reachable libm_pow2 round1 self ->
  current_user self = "Guest" /\ calibration_distance self = 50%Z.
Proof.
  induction 1 as [|fr self _ IH|pose fr self _ IH|env u m self files _ IH].
  - split; reflexivity.
  - destruct (calibrate_system_cases fr self) as [[_ ->]|[_ ->]]; exact IH.
  - unfold process_frame. destruct (calibrated self).
    + destruct (cvtColor_BGR2RGB fr); [destruct pose|]; exact IH.
    + destruct (calibrate_system_cases fr self) as [[_ ->]|[_ ->]]; [exact IH|].
      destruct (cvtColor_BGR2RGB fr); [destruct pose|]; exact IH.
  - rewrite save_measurements_unfold.
    destruct (can_open env (history_file u)); exact IH.
Qed.

End EntryFacts.

Lemma extract_measurements_entries_witness :
  exists m : measurement_set,
    extract_measurements PyFloat.ieee_pow2 PyFloat.np_round1
      Sample.calibrated_system (Sequence Sample.body) Sample.a_frame = Some m
    /\ m !! "Shoulder Width" = Some 31%float
    /\ m !! "Left Arm Length" = Some 34.9%float
    /\ m !! "Torso Length" = Some 34.9%float
    /\ m !! "Inseam" = Some 34.9%float
    /\ m !! "Hip Width" = Some 31%float
    /\ m !! "Leg Length" = Some 34.9%float.
Proof.
  apply (extract_measurements_entries PyFloat.ieee_pow2 PyFloat.np_round1
           Sample.calibrated_system Sample.body Sample.a_frame
           (Sample.at_ 0.25 0.125) (Sample.at_ 0.5 0.125) (Sample.at_ 0.25 0.5)
           (Sample.at_ 0.25 0.5) (Sample.at_ 0.5 0.5) (Sample.at_ 0.25 0.875)
           200 225 225 225 200);
    reflexivity.
Defined.

Lemma unwritten_fields_witness :
  current_user
    (system (state_after
       (save_measurements Sample.first_call "Alice" Sample.M1 Sample.fresh_world)))
  = "Guest".
Proof.
  apply (unwritten_fields PyFloat.ieee_pow2 PyFloat.np_round1
           (system (state_after
              (save_measurements Sample.first_call "Alice" Sample.M1 Sample.fresh_world)))).
  apply (reachable_save_measurements PyFloat.ieee_pow2 PyFloat.np_round1
           Sample.first_call "Alice" Sample.M1 init ∅).
  apply reachable_init.
Defined.

(** ** The measurement that is never stored *)

Section NoMeasurement.

Variable libm_pow2 : float -> result float.
Variable round1 : float -> float.

(** X19. In every state the system goes through, its current measurement
    is [None]: [process_frame], the one method that assigns it, assigns
    the result of the extraction on the detector's message, which is
    [None]. *)
Theorem current_measurements_never_set (self : AITailorSystem) :
  reachable libm_pow2 round1 self -> current_measurements self = None.
Proof.
  induction 1 as [|fr self _ IH|pose fr self _ IH|env u m self files _ IH].
  - reflexivity.
  - destruct (calibrate_system_cases fr self) as [[_ ->]|[_ ->]]; exact IH.
  - unfold process_frame. destruct (calibrated self).
    + destruct (cvtColor_BGR2RGB fr); [destruct pose|]; cbn [state_after];
        rewrite ?extract_measurements_landmark_list; solve [exact IH | reflexivity].
    + destruct (calibrate_system_cases fr self) as [[_ ->]|[_ ->]]; [exact IH|].
      destruct (cvtColor_BGR2RGB fr); [destruct pose|]; cbn [state_after];
        rewrite ?extract_measurements_landmark_list; solve [exact IH | reflexivity].
  - rewrite save_measurements_unfold.
    destruct (can_open env (history_file u)); exact IH.
Qed.

Lemma act_nothing_saved (a : action) (s : Site) :
  js_currentMeasurements (page s) = None ->
  js_currentMeasurements (page (act libm_pow2 round1 a s)) = None
  /\ measurements_data (system (world (act libm_pow2 round1 a s)))
     = measurements_data (system (world s))
  /\ disk (world (act libm_pow2 round1 a s)) = disk (world s).
Proof.
  intros Hp. destruct a as [v|camera delivered|camera pose delivered|env].
  - repeat split. exact Hp.
  - cbn [act page world serve system disk]. split.
    + destruct (returned _); [destruct delivered|]; exact Hp.
    + split; [|reflexivity].
      destruct (calibrate_state camera (system (world s))) as [->|(fr & _ & _ & ->)];
        reflexivity.
  - cbn [act]. destruct (js_calibrated (page s)); [|repeat split; exact Hp].
    cbn [page world serve system disk]. split.
    + destruct (measure libm_pow2 round1 camera pose (system (world s)))
        as [data s'|e s'] eqn:M; cbn [returned]; [|exact Hp].
      destruct delivered; [|exact Hp].
      rewrite (measure_returned libm_pow2 round1 _ _ _ _ _ M). exact Hp.
    + split; [|reflexivity].
      destruct (measure_state libm_pow2 round1 camera pose (system (world s)))
        as (s1 & [->|(fr & _ & _ & ->)] & [->|[o ->]]); reflexivity.
  - cbn [act]. rewrite Hp. unfold saveMeasurements. repeat split. exact Hp.
Qed.

(** X20. Nothing is ever saved from the page.  Every request coming from
    the page as loaded, whatever the user does, in any order, and whatever
    the camera delivers and the detector finds: the page never holds a
    measurement, so its save button never sends a request; no history is
    added to and no file is written. *)
Theorem page_never_saves (acts : list action) (w : World) :
  let s := act_all libm_pow2 round1 acts {| page := page_loaded; world := w |} in
  js_currentMeasurements (page s) = None
  /\ measurements_data (system (world s)) = measurements_data (system w)
  /\ disk (world s) = disk w.
Proof.
  cbv zeta. induction acts as [|a acts (IHp & IHm & IHd)] using rev_ind.
  - repeat split.
  - rewrite act_all_snoc.
    destruct (act_nothing_saved a _ IHp) as (Hp & Hm & Hd).
    split; [exact Hp|]. split; congruence.
Qed.

End NoMeasurement.

Lemma current_measurements_never_set_witness :
  current_measurements
    (state_after
       (process_frame PyFloat.ieee_pow2 PyFloat.np_round1
          (Some Sample.body) Sample.a_frame init))
  = None.
Proof.
  apply (current_measurements_never_set PyFloat.ieee_pow2 PyFloat.np_round1).
  apply reachable_process_frame, reachable_init.
Defined.
